(** * suumo_scraping: fetch / retry / parse / merge / filter pipeline

    A shallow embedding of [my_suumo/suumo_scraping.py].

    - Python [str] values are lists of Unicode code points ([pystr]).
    - The dictionary of a listing is a record ([property_info]); the two
      keys that [update(details)] adds later are optional fields, and
      reading an absent one raises [KeyError]. The attributes of a tag are
      a [gmap].
    - A parsed document (what [BeautifulSoup(html, "html.parser")] returns)
      is a [PageElement] tree; the searches the program runs on it
      ([find], [find_all], [select], [.text], [tag[key]]) are functions
      on that tree. The parser itself is a parameter of the environment:
      for each string it returns a tree or raises; so is the exception, if
      any, with which the selector engine leaves [soup.select].
    - The sheet of the workbook is the list of its rows. A cell keeps the
      first 32767 code points of its string and refuses the row when a
      control character other than tab, line feed and carriage return is
      among them ([check_string]).
    - Effects (HTTP requests, logging, sleeping, saving the workbook) are
      recorded as a list of [event]s by a small monad [M], which also
      carries a raised Python exception and the number of requests issued
      so far (the index into the network's sequence of answers).
    - [main], the daily scheduling loop, is not embedded. *)

From stdpp Require Import gmap list strings.
From Stdlib Require String Ascii.
From Stdlib Require Import ZArith NArith Lia.

Set Warnings "-register-all".
Open Scope N_scope.

(** ** Python strings *)

Abbreviation pystr := (list N).

(** Code points of a UTF-8 byte sequence (string literals of this file are
    UTF-8). *)
Fixpoint decode_utf8 (bs : list N) : pystr :=
  match bs with
  | [] => []
  | b0 :: r0 =>
      if b0 <? 0x80 then b0 :: decode_utf8 r0
      else if b0 <? 0xE0 then
        match r0 with
        | b1 :: r1 => ((b0 mod 0x20) * 0x40 + b1 mod 0x40) :: decode_utf8 r1
        | _ => []
        end
      else if b0 <? 0xF0 then
        match r0 with
        | b1 :: b2 :: r2 =>
            ((b0 mod 0x10) * 0x1000 + (b1 mod 0x40) * 0x40 + b2 mod 0x40)
              :: decode_utf8 r2
        | _ => []
        end
      else
        match r0 with
        | b1 :: b2 :: b3 :: r3 =>
            ((b0 mod 0x08) * 0x40000 + (b1 mod 0x40) * 0x1000
             + (b2 mod 0x40) * 0x40 + b3 mod 0x40) :: decode_utf8 r3
        | _ => []
        end
  end.

Definition py (s : string) : pystr :=
  decode_utf8 (map Ascii.N_of_ascii (String.list_ascii_of_string s)).

(** [str.isspace] for one code point. *)
Definition isspace (c : N) : bool :=
  ((0x09 <=? c) && (c <=? 0x0D)) || ((0x1C <=? c) && (c <=? 0x20))
  || (c =? 0x85) || (c =? 0xA0) || (c =? 0x1680)
  || ((0x2000 <=? c) && (c <=? 0x200A))
  || (c =? 0x2028) || (c =? 0x2029) || (c =? 0x202F) || (c =? 0x205F)
  || (c =? 0x3000).

Fixpoint lstrip (s : pystr) : pystr :=
  match s with
  | c :: s' => if isspace c then lstrip s' else s
  | [] => []
  end.

Definition rstrip (s : pystr) : pystr := reverse (lstrip (reverse s)).

(** [s.strip()] *)
Definition strip (s : pystr) : pystr := rstrip (lstrip s).

Fixpoint startswith (p s : pystr) : bool :=
  match p, s with
  | [], _ => true
  | a :: p', b :: s' => (a =? b) && startswith p' s'
  | _ :: _, [] => false
  end.

(** [needle in hay] for two strings. *)
Fixpoint str_in (needle hay : pystr) : bool :=
  startswith needle hay
  || match hay with
     | [] => false
     | _ :: hay' => str_in needle hay'
     end.

(** [s.split(sep)] for a non-empty separator: [cur] is the segment being
    read (reversed), [skip] the number of code points of a separator just
    matched that are still to be passed over. *)
Fixpoint split_aux (sep : pystr) (skip : nat) (cur s : pystr) : list pystr :=
  match s with
  | [] => [reverse cur]
  | c :: s' =>
      match skip with
      | S k => split_aux sep k cur s'
      | O =>
          if startswith sep s
          then reverse cur :: split_aux sep (length sep - 1) [] s'
          else split_aux sep 0 (c :: cur) s'
      end
  end.

Definition split (s sep : pystr) : list pystr := split_aux sep 0 [] s.

(** [sep.join(parts)] *)
Fixpoint join (sep : pystr) (parts : list pystr) : pystr :=
  match parts with
  | [] => []
  | [p] => p
  | p :: rest => p ++ sep ++ join sep rest
  end.

(** ** Constants of the module *)

Definition BASE_URL : pystr := Eval vm_compute in py "https://suumo.jp".
Definition SEARCH_URL : pystr :=
  Eval vm_compute in py "https://suumo.jp/jj/chintai/ichiran/FR301FC001/?...".
Definition MAX_RETRY : nat := 3.
Definition RETRY_INTERVAL : Z := 5.
Definition OUTPUT_EXCEL_FILE : pystr := Eval vm_compute in py "賃貸物件情報.xlsx".

(** Dictionary keys, markers and the sentinel. *)
Definition K_NAME : pystr := Eval vm_compute in py "物件名".
Definition K_PRICE : pystr := Eval vm_compute in py "賃料".
Definition K_MADORI : pystr := Eval vm_compute in py "間取り".
Definition K_STATIONS : pystr := Eval vm_compute in py "最寄駅".
Definition K_URL : pystr := Eval vm_compute in py "URL".
Definition K_KOUZOU : pystr := Eval vm_compute in py "構造".
Definition K_SHIKIKIN_REIKIN : pystr := Eval vm_compute in py "敷金/礼金".
Definition SHIKIKIN : pystr := Eval vm_compute in py "敷金".
Definition MOKUZOU : pystr := Eval vm_compute in py "木造".
Definition TOUTEN : pystr := Eval vm_compute in py "、".
Definition JOUHOU_NASHI : pystr := Eval vm_compute in py "情報なし".

(** ** Parsed documents *)

(** An element of a parsed tree: a text node or a tag with its name, the
    tokens of its [class] attribute, its other attributes and its
    children. *)
Inductive PageElement :=
| NavigableString (s : pystr)
| Tag (name : pystr) (classes : list pystr) (attrs : gmap (list N) (list N))
      (contents : list PageElement).

Definition S_div : pystr := Eval vm_compute in py "div".
Definition S_span : pystr := Eval vm_compute in py "span".
Definition S_a : pystr := Eval vm_compute in py "a".
Definition S_table : pystr := Eval vm_compute in py "table".
Definition S_tr : pystr := Eval vm_compute in py "tr".
Definition S_th : pystr := Eval vm_compute in py "th".
Definition S_td : pystr := Eval vm_compute in py "td".
Definition S_href : pystr := Eval vm_compute in py "href".
Definition C_unit_content : pystr := Eval vm_compute in py "property_unit-content".
Definition C_unit_title : pystr := Eval vm_compute in py "property_unit-title".
Definition C_unit_body : pystr := Eval vm_compute in py "property_unit-body".
Definition C_price : pystr := Eval vm_compute in py "price".
Definition C_madori : pystr := Eval vm_compute in py "madori".
Definition C_js_gaiyou : pystr := Eval vm_compute in py "js-物件概要".
Definition C_data_table : pystr := Eval vm_compute in py "data_table".

(** All elements below [e], in document order. *)
Fixpoint descendants (e : PageElement) : list PageElement :=
  match e with
  | NavigableString _ => []
  | Tag _ _ _ kids => flat_map (fun k => k :: descendants k) kids
  end.

(** Does [e] match a tag name and, when given, a class? *)
Definition matches (name : pystr) (class_ : option pystr) (e : PageElement) : bool :=
  match e with
  | NavigableString _ => false
  | Tag n cls _ _ =>
      bool_decide (n = name)
      && match class_ with
         | None => true
         | Some c => bool_decide (c ∈ cls)
         end
  end.

(** [e.find_all(name, class_=c)] *)
Definition find_all (name : pystr) (class_ : option pystr) (e : PageElement)
  : list PageElement :=
  List.filter (matches name class_) (descendants e).

(** [e.find(name, class_=c)]: the first match or [None]. *)
Definition find (name : pystr) (class_ : option pystr) (e : PageElement)
  : option PageElement :=
  head (find_all name class_ e).

(** [e.text] *)
Fixpoint text (e : PageElement) : pystr :=
  match e with
  | NavigableString s => s
  | Tag _ _ _ kids => flat_map text kids
  end.

(** The [tr] elements at or below [e] that lie under a [table] of class
    [data_table]; [inside] says whether such a table is an ancestor. *)
Fixpoint select_rows (inside : bool) (e : PageElement) : list PageElement :=
  match e with
  | NavigableString _ => []
  | Tag n cls _ kids =>
      (if inside && bool_decide (n = S_tr) then [e] else [])
      ++ flat_map
           (select_rows
              (inside || (bool_decide (n = S_table)
                          && bool_decide (C_data_table ∈ cls))))
           kids
  end.

(** [soup.select("table.data_table tr")]; the root is the document itself. *)
Definition select_table_rows (soup : PageElement) : list PageElement :=
  match soup with
  | NavigableString _ => []
  | Tag _ _ _ kids => flat_map (select_rows false) kids
  end.

(** ** Exceptions, records and events *)

Inductive request_error :=
| HTTPError (status : Z)
| ConnectionError
| Timeout.

(** The exceptions met by the program, all of them subclasses of
    [Exception]. *)
Inductive exn :=
| RequestException (why : request_error)
| AttributeError
| TypeError
| IndexError
| KeyError (key : pystr)
| IllegalCharacterError
| OtherError (name : string).

(** [except requests.exceptions.RequestException] *)
Definition is_RequestException (e : exn) : bool :=
  match e with RequestException _ => true | _ => false end.

(** [except AttributeError] *)
Definition is_AttributeError (e : exn) : bool :=
  match e with AttributeError => true | _ => false end.

(** [except Exception] *)
Definition is_Exception (e : exn) : bool := true.

Inductive outcome (A : Type) :=
| Returns (a : A)
| Raises (e : exn).
Arguments Returns {A} a.
Arguments Raises {A} e.

Definition obind {A B} (m : outcome A) (f : A -> outcome B) : outcome B :=
  match m with
  | Returns a => f a
  | Raises e => Raises e
  end.

Notation "x <~ m ;; k" := (obind m (fun x => k))
  (at level 100, m at next level, right associativity).

(** The answer to one HTTP request. *)
Record response := { status_code : Z; response_text : pystr }.

(** [response.raise_for_status()]: an [HTTPError] for a 4xx or 5xx status. *)
Definition raise_for_status (r : response) : outcome unit :=
  if ((400 <=? status_code r) && (status_code r <? 600))%Z
  then Raises (RequestException (HTTPError (status_code r)))
  else Returns tt.

(** The dictionary of one listing. The five keys of the literal built by
    [parse_search_results] are always there; the two keys that
    [update(details)] adds are absent ([None]) until then. *)
Record property_info := {
  p_name : pystr;                       (* "物件名" *)
  p_price : pystr;                      (* "賃料" *)
  p_madori : pystr;                     (* "間取り" *)
  p_stations : list pystr;              (* "最寄駅" *)
  p_url : pystr;                        (* "URL" *)
  p_kouzou : option pystr;              (* "構造" *)
  p_shikikin_reikin : option pystr      (* "敷金/礼金" *)
}.

(** The dictionary [parse_property_details] returns. *)
Record details := {
  d_kouzou : pystr;                     (* "構造" *)
  d_shikikin_reikin : pystr             (* "敷金/礼金" *)
}.

(** [property_info.update(details)] *)
Definition update (p : property_info) (d : details) : property_info :=
  {| p_name := p_name p; p_price := p_price p; p_madori := p_madori p;
     p_stations := p_stations p; p_url := p_url p;
     p_kouzou := Some (d_kouzou d);
     p_shikikin_reikin := Some (d_shikikin_reikin d) |}.

Inductive level := ERROR | WARNING | INFO.

Inductive message :=
| Error_fetching (url : pystr) (e : exn)
| Retrying_after (secs : Z)
| Failed_to_extract_property (e : exn)
| Failed_to_parse_property_details (e : exn)
| No_data_to_save
| Saved_data_to (filename : pystr)
| Error_saving_Excel (e : exn)
| Start_scraping
| Failed_to_get_search_results
| No_properties_found
| Failed_to_fetch_detail (url : pystr)
| Scraping_done.

Inductive event :=
| EvGet (url : pystr)                               (* requests.get(url, ...) *)
| EvLog (lvl : level) (msg : message)               (* logger.<lvl>(msg) *)
| EvSleep (secs : Z)                                (* time.sleep(secs) *)
| EvSave (filename : pystr) (rows : list (list pystr)).  (* workbook.save *)

(** What the program does not decide: the answer of the network to the
    [n]-th request of the process; what the parser makes of a string, a
    tree or an exception; the exception, if any, with which the selector
    engine leaves [soup.select]; and whether the disk takes the workbook. *)
Record Env := {
  requests_get : pystr -> nat -> exn + response;
  BeautifulSoup : pystr -> exn + PageElement;
  select_fails : PageElement -> option exn;
  workbook_save : pystr -> list (list pystr) -> option exn
}.

(** ** The effect monad *)

Record run (A : Type) := Run {
  result : outcome A;
  events : list event;
  clock : nat
}.
Arguments Run {A} result events clock.
Arguments result {A} r.
Arguments events {A} r.
Arguments clock {A} r.

Definition M (A : Type) : Type := nat -> run A.

Definition ret {A} (a : A) : M A := fun n => Run (Returns a) [] n.

Definition raise {A} (e : exn) : M A := fun n => Run (Raises e) [] n.

Definition bind {A B} (m : M A) (f : A -> M B) : M B := fun n =>
  let r := m n in
  match result r with
  | Raises e => Run (Raises e) (events r) (clock r)
  | Returns a =>
      let r' := f a (clock r) in
      Run (result r') (events r ++ events r') (clock r')
  end.

Notation "x <- m ;; k" := (bind m (fun x => k))
  (at level 100, m at next level, right associativity).
Notation "m ;; k" := (bind m (fun _ => k))
  (at level 100, right associativity).

Definition lift {A} (o : outcome A) : M A := fun n => Run o [] n.

(** [try: body  except <catches> as e: handler e] *)
Definition try_except {A} (body : M A) (catches : exn -> bool)
    (handler : exn -> M A) : M A := fun n =>
  let r := body n in
  match result r with
  | Returns a => r
  | Raises e =>
      if catches e
      then let r' := handler e (clock r) in
           Run (result r') (events r ++ events r') (clock r')
      else r
  end.

Definition log (lvl : level) (msg : message) : M unit :=
  fun n => Run (Returns tt) [EvLog lvl msg] n.

Definition sleep (secs : Z) : M unit :=
  fun n => Run (Returns tt) [EvSleep secs] n.

(** ** The program *)

Definition HEADER : list pystr :=
  [K_NAME; K_PRICE; K_SHIKIKIN_REIKIN; K_KOUZOU; K_MADORI; K_STATIONS; K_URL].
Definition COMMA_SPACE : pystr := Eval vm_compute in py ", ".

(** [o.text], where [o] may be [None]. *)
Definition getattr_text (o : option PageElement) : outcome pystr :=
  match o with
  | None => Raises AttributeError
  | Some e => Returns (text e)
  end.

(** [o.find_all(name)], where [o] may be [None]. *)
Definition getattr_find_all (name : pystr) (o : option PageElement)
  : outcome (list PageElement) :=
  match o with
  | None => Raises AttributeError
  | Some e => Returns (find_all name None e)
  end.

(** [l[i]] on a list. *)
Definition getitem_index {A} (l : list A) (i : nat) : outcome A :=
  match l !! i with
  | None => Raises IndexError
  | Some x => Returns x
  end.

(** [o[key]], where [o] may be [None], a string or a tag. *)
Definition getitem_attr (o : option PageElement) (key : pystr) : outcome pystr :=
  match o with
  | None => Raises TypeError
  | Some (NavigableString _) => Raises TypeError
  | Some (Tag _ _ attrs _) =>
      match attrs !! key with
      | None => Raises (KeyError key)
      | Some v => Returns v
      end
  end.

(** [d[key]] for a key of a listing dictionary that may be absent. *)
Definition getitem_key (o : option pystr) (key : pystr) : outcome pystr :=
  match o with
  | None => Raises (KeyError key)
  | Some v => Returns v
  end.

(** The body of the [try] of [parse_search_results] (lines 54-71): the
    dictionary that is appended to [data]. *)
Definition property_of_unit (property_unit : PageElement) : outcome property_info :=
  name <~ getattr_text (find S_div (Some C_unit_title) property_unit);;
  let name := strip name in
  price <~ getattr_text (find S_span (Some C_price) property_unit);;
  let price := strip price in
  madori <~ getattr_text (find S_span (Some C_madori) property_unit);;
  let madori := strip madori in
  divs <~ getattr_find_all S_div (find S_div (Some C_unit_body) property_unit);;
  second <~ getitem_index divs 1;;
  let stations_info := strip (text second) in
  let stations := map strip (split stations_info TOUTEN) in
  href <~ getitem_attr (find S_a (Some C_js_gaiyou) property_unit) S_href;;
  let url := BASE_URL ++ href in
  Returns {| p_name := name; p_price := price; p_madori := madori;
             p_stations := stations; p_url := url;
             p_kouzou := None; p_shikikin_reikin := None |}.

(** The body of the loop of [parse_property_details] (lines 85-95) on the
    dictionary [details]. *)
Definition scan_row (row : PageElement) (d : details) : outcome details :=
  let header := find S_th None row in
  let value := find S_td None row in
  if negb (bool_decide (is_Some header)) || negb (bool_decide (is_Some value))
  then Returns d
  else
    key <~ getattr_text header;;
    let key := strip key in
    if str_in K_KOUZOU key then
      v <~ getattr_text value;;
      Returns {| d_kouzou := strip v; d_shikikin_reikin := d_shikikin_reikin d |}
    else if str_in SHIKIKIN key then
      v <~ getattr_text value;;
      Returns {| d_kouzou := d_kouzou d; d_shikikin_reikin := strip v |}
    else Returns d.

(** The loop of [parse_property_details]: the exception that ends it, if
    any, and the dictionary as it is then. *)
Fixpoint scan_rows (rows : list PageElement) (d : details) : option exn * details :=
  match rows with
  | [] => (None, d)
  | row :: rest =>
      match scan_row row d with
      | Returns d' => scan_rows rest d'
      | Raises e => (Some e, d)
      end
  end.

Definition DEFAULT_DETAILS : details :=
  {| d_kouzou := JOUHOU_NASHI; d_shikikin_reikin := JOUHOU_NASHI |}.

(** One row of the sheet (lines 118-127). *)
Definition row_of_item (item : property_info) : outcome (list pystr) :=
  let stations := join COMMA_SPACE (p_stations item) in
  shikikin <~ getitem_key (p_shikikin_reikin item) K_SHIKIKIN_REIKIN;;
  kouzou <~ getitem_key (p_kouzou item) K_KOUZOU;;
  Returns [p_name item; p_price item; shikikin; kouzou; p_madori item;
           stations; p_url item].

(** The first [n] code points of [s]: the slice [s[:n]]. *)
Fixpoint slice (n : N) (s : pystr) : pystr :=
  match s with
  | [] => []
  | c :: s' => if (n =? 0)%N then [] else c :: slice (N.pred n) s'
  end.

(** The code points that the sheet refuses: the control characters other
    than tab, line feed and carriage return. *)
Definition is_illegal (c : N) : bool :=
  ((c <=? 8) || ((11 <=? c) && (c <=? 12)) || ((14 <=? c) && (c <=? 31)))%N.

(** What a cell of the sheet makes of a string: it keeps at most 32767
    code points and raises when a refused one is among them. *)
Definition check_string (value : pystr) : outcome pystr :=
  let value := slice 32767 value in
  if existsb is_illegal value then Raises IllegalCharacterError
  else Returns value.

Fixpoint check_cells (row : list pystr) : outcome (list pystr) :=
  match row with
  | [] => Returns []
  | value :: rest =>
      cell <~ check_string value;;
      cells <~ check_cells rest;;
      Returns (cell :: cells)
  end.

(** [sheet.append(row)] *)
Definition sheet_append (sheet : list (list pystr)) (row : list pystr)
  : outcome (list (list pystr)) :=
  stored <~ check_cells row;;
  Returns (sheet ++ [stored]).

(** The loop of lines 117-128. *)
Fixpoint append_rows (data : list property_info) (sheet : list (list pystr))
  : outcome (list (list pystr)) :=
  match data with
  | [] => Returns sheet
  | item :: rest =>
      row <~ row_of_item item;;
      sheet' <~ sheet_append sheet row;;
      append_rows rest sheet'
  end.

(** [p for p in all_data if "木造" not in p["構造"]] *)
Fixpoint filter_mokuzou (all_data : list property_info) : outcome (list property_info) :=
  match all_data with
  | [] => Returns []
  | p :: rest =>
      kouzou <~ getitem_key (p_kouzou p) K_KOUZOU;;
      filtered <~ filter_mokuzou rest;;
      Returns (if negb (str_in MOKUZOU kouzou) then p :: filtered else filtered)
  end.

Section Program.

Variable env : Env.

(** [requests.get(url, headers=HEADERS, timeout=10)] *)
Definition http_get (url : pystr) : M response := fun n =>
  Run (match requests_get env url n with
       | inl e => Raises e
       | inr r => Returns r
       end) [EvGet url] (S n).

(** One pass through the loop of [fetch_page]: [Some text] when it
    returns, [None] when the loop goes on. *)
Definition fetch_attempt (url : pystr) (i : nat) : M (option pystr) :=
  try_except
    (response <- http_get url;;
     lift (raise_for_status response);;
     ret (Some (response_text response)))
    is_RequestException
    (fun e =>
       log ERROR (Error_fetching url e);;
       (if (i <? MAX_RETRY - 1)%nat
        then log INFO (Retrying_after RETRY_INTERVAL);; sleep RETRY_INTERVAL
        else ret tt);;
       ret None).

Fixpoint fetch_loop (url : pystr) (range : list nat) : M (option pystr) :=
  match range with
  | [] => ret None
  | i :: rest =>
      r <- fetch_attempt url i;;
      match r with
      | Some body => ret (Some body)
      | None => fetch_loop url rest
      end
  end.

Definition fetch_page (url : pystr) : M (option pystr) :=
  fetch_loop url (seq 0 MAX_RETRY).

(** The loop of [parse_search_results] (lines 52-74). *)
Fixpoint parse_units (properties : list PageElement) (data : list property_info)
  : M (list property_info) :=
  match properties with
  | [] => ret data
  | property_unit :: rest =>
      data' <- try_except
                 (p <- lift (property_of_unit property_unit);;
                  ret (data ++ [p]))
                 is_AttributeError
                 (fun e => log WARNING (Failed_to_extract_property e);;
                           ret data);;
      parse_units rest data'
  end.

(** [BeautifulSoup(html, "html.parser")] *)
Definition soup_of (html : pystr) : outcome PageElement :=
  match BeautifulSoup env html with
  | inl e => Raises e
  | inr soup => Returns soup
  end.

Definition parse_search_results (html : pystr) : M (list property_info) :=
  soup <- lift (soup_of html);;
  let properties := find_all S_div (Some C_unit_content) soup in
  parse_units properties [].

(** [soup.select("table.data_table tr")] *)
Definition select (soup : PageElement) : outcome (list PageElement) :=
  match select_fails env soup with
  | Some e => Raises e
  | None => Returns (select_table_rows soup)
  end.

(** The [try] block of [parse_property_details] (lines 83-95): the
    exception that ends it, if any, and the dictionary as it is then. *)
Definition try_rows (soup : PageElement) (d : details) : option exn * details :=
  match select soup with
  | Raises e => (Some e, d)
  | Returns rows => scan_rows rows d
  end.

Definition parse_property_details (html : pystr) : M details :=
  soup <- lift (soup_of html);;
  match try_rows soup DEFAULT_DETAILS with
  | (None, d) => ret d
  | (Some e, d) => log WARNING (Failed_to_parse_property_details e);; ret d
  end.

(** [workbook.save(filename)] *)
Definition save_workbook (filename : pystr) (sheet : list (list pystr)) : M unit :=
  fun n =>
    Run (match workbook_save env filename sheet with
         | Some e => Raises e
         | None => Returns tt
         end) [EvSave filename sheet] n.

Definition save_to_excel (data : list property_info) (filename : pystr) : M unit :=
  match data with
  | [] => log WARNING No_data_to_save
  | _ :: _ =>
      sheet <- lift (sheet <~ sheet_append [] HEADER;; append_rows data sheet);;
      try_except
        (save_workbook filename sheet;;
         log INFO (Saved_data_to filename))
        is_Exception
        (fun e => log ERROR (Error_saving_Excel e))
  end.

(** The loop of [scrape_and_save] (lines 153-162). *)
Fixpoint fetch_details (property_list all_data : list property_info)
  : M (list property_info) :=
  match property_list with
  | [] => ret all_data
  | property_info :: rest =>
      detail_html <- fetch_page (p_url property_info);;
      match detail_html with
      | None =>
          log WARNING (Failed_to_fetch_detail (p_url property_info));;
          fetch_details rest all_data
      | Some detail_html =>
          details <- parse_property_details detail_html;;
          fetch_details rest (all_data ++ [update property_info details])
      end
  end.

Definition scrape_and_save : M unit :=
  log INFO Start_scraping;;
  html <- fetch_page SEARCH_URL;;
  match html with
  | None => log ERROR Failed_to_get_search_results
  | Some html =>
      property_list <- parse_search_results html;;
      match property_list with
      | [] => log WARNING No_properties_found
      | _ :: _ =>
          all_data <- fetch_details property_list [];;
          filtered_data <- lift (filter_mokuzou all_data);;
          save_to_excel filtered_data OUTPUT_EXCEL_FILE;;
          log INFO Scraping_done
      end
  end.

End Program.

(** ** Notions the properties are stated with *)

Close Scope N_scope.

(** What one attempt of [fetch_page] makes of the answer of the network:
    the body, or the exception of [requests.get] or [raise_for_status]. *)
Definition attempt_result (a : exn + response) : outcome pystr :=
  match a with
  | inl e => Raises e
  | inr r => _ <~ raise_for_status r;; Returns (response_text r)
  end.

(** The attempt fails with [e], an exception that [fetch_page] catches. *)
Definition retried (a : exn + response) (e : exn) : Prop :=
  attempt_result a = Raises e ∧ is_RequestException e = true.

Definition is_get_or_sleep (e : event) : bool :=
  match e with
  | EvGet _ | EvSleep _ => true
  | _ => false
  end.

(** [k] requests of [url], a wait of [RETRY_INTERVAL] between two
    consecutive ones and none after the last. *)
Fixpoint attempts_with_waits (url : pystr) (k : nat) : list event :=
  match k with
  | O => []
  | S k' =>
      match k' with
      | O => [EvGet url]
      | S _ => EvGet url :: EvSleep RETRY_INTERVAL :: attempts_with_waits url k'
      end
  end.

(** The events of an attempt that fails with a caught exception [e];
    [wait] says whether it is followed by a wait. *)
Definition failed_attempt (url : pystr) (e : exn) (wait : bool) : list event :=
  [EvGet url; EvLog ERROR (Error_fetching url e)]
  ++ (if wait
      then [EvLog INFO (Retrying_after RETRY_INTERVAL); EvSleep RETRY_INTERVAL]
      else []).

(** All [MAX_RETRY] attempts made from request [n] on fail with a caught
    exception, the last of them with [last_error]. *)
Definition exhausted (env : Env) (url : pystr) (n : nat) (last_error : exn) : Prop :=
  (∀ j, j < MAX_RETRY → ∃ e, retried (requests_get env url (n + j)) e)
  ∧ retried (requests_get env url (n + (MAX_RETRY - 1))) last_error.

(** The reading of the specification: from what [fetch_page] returns after
    exhausting its attempts one can read the last error and the URL. *)
Definition failure_carries_error_and_url : Prop :=
  ∃ read : outcome (option pystr) → option (exn * pystr),
    ∀ env url n last_error,
      exhausted env url n last_error →
      read (result (fetch_page env url n)) = Some (last_error, url).

(** [s] has [needle] as a substring. *)
Definition contains (needle s : pystr) : Prop :=
  ∃ pre post, s = pre ++ needle ++ post.

(** The test of line 165 on a record that has a structure. *)
Definition is_mokuzou (p : property_info) : bool :=
  match p_kouzou p with
  | Some s => str_in MOKUZOU s
  | None => false
  end.

(** The records of the units from which all five fields can be read, in
    document order. *)
Fixpoint extracted (units : list PageElement) : list property_info :=
  match units with
  | [] => []
  | u :: rest =>
      match property_of_unit u with
      | Returns p => p :: extracted rest
      | Raises _ => extracted rest
      end
  end.

(** One warning for each unit from which a field cannot be read. *)
Fixpoint warnings (units : list PageElement) : list event :=
  match units with
  | [] => []
  | u :: rest =>
      match property_of_unit u with
      | Returns _ => warnings rest
      | Raises e => EvLog WARNING (Failed_to_extract_property e) :: warnings rest
      end
  end.

(** The unit is well-formed, or malformed in a way that raises
    [AttributeError]: a title, price, layout or body element is missing. *)
Definition skippable (u : PageElement) : bool :=
  match property_of_unit u with
  | Returns _ => true
  | Raises e => is_AttributeError e
  end.

(** The value of a table row that has both cells and whose key text
    contains [marker]: the text of its value cell, trimmed. *)
Definition row_value (marker : pystr) (row : PageElement) : option pystr :=
  match find S_th None row, find S_td None row with
  | Some header, Some value =>
      if str_in marker (strip (text header))
      then Some (strip (text value))
      else None
  | _, _ => None
  end.

(** The deposit of a table row that has both cells and whose key text
    contains the deposit marker but not the structure marker. *)
Definition row_shikikin (row : PageElement) : option pystr :=
  match find S_th None row, find S_td None row with
  | Some header, Some value =>
      if str_in K_KOUZOU (strip (text header)) then None
      else if str_in SHIKIKIN (strip (text header))
      then Some (strip (text value))
      else None
  | _, _ => None
  end.

(** The values of the deposit rows of a detail page, in document order. *)
Definition shikikin_values (soup : PageElement) : list pystr :=
  omap row_shikikin (select_table_rows soup).

(** The values of the structure rows of a detail page, in document order. *)
Definition kouzou_values (soup : PageElement) : list pystr :=
  omap (row_value K_KOUZOU) (select_table_rows soup).

(** The reading of the specification: the value of any row whose key text
    contains the structure marker is the structure that is returned. *)
Definition every_kouzou_row_is_returned : Prop :=
  ∀ env html n soup row header value,
    BeautifulSoup env html = inr soup →
    select_fails env soup = None →
    row ∈ select_table_rows soup →
    find S_th None row = Some header →
    find S_td None row = Some value →
    contains K_KOUZOU (strip (text header)) →
    ∃ d, result (parse_property_details env html n) = Returns d
         ∧ d_kouzou d = strip (text value).

(** The dictionary that [parse_property_details] returns for [html], when
    the parser returns a tree for it. *)
Definition details_of (env : Env) (html : pystr) : details :=
  match BeautifulSoup env html with
  | inr soup => (try_rows env soup DEFAULT_DETAILS).2
  | inl _ => DEFAULT_DETAILS
  end.

(** The warning that [parse_property_details] logs for [html], if any. *)
Definition details_events (env : Env) (html : pystr) : list event :=
  match BeautifulSoup env html with
  | inr soup =>
      match select_fails env soup with
      | Some e => [EvLog WARNING (Failed_to_parse_property_details e)]
      | None => []
      end
  | inl _ => []
  end.

(** The parser returns a tree for [html]. *)
Definition parsed (env : Env) (html : pystr) : Prop :=
  ∃ soup, BeautifulSoup env html = inr soup.

(** The cells of the row that [save_to_excel] writes for a record that has
    its detail fields. *)
Definition cells (p : property_info) : list pystr :=
  [p_name p; p_price p; default [] (p_shikikin_reikin p);
   default [] (p_kouzou p); p_madori p;
   join COMMA_SPACE (p_stations p); p_url p].

(** The cells as the sheet keeps them: the first 32767 code points of
    each. *)
Definition stored (row : list pystr) : list pystr := map (slice 32767) row.

(** The sheet takes the string: none of the code points it keeps of it is
    one that it refuses. *)
Definition legal (value : pystr) : bool :=
  negb (existsb is_illegal (slice 32767 value)).

(** The sheet takes every cell of the row of [p]. *)
Definition writable (p : property_info) : bool := forallb legal (cells p).

(** What [save_to_excel(data)] does with records that have their detail
    fields and whose rows the sheet takes. *)
Definition sink_events (env : Env) (filename : pystr) (data : list property_info)
  : list event :=
  match data with
  | [] => [EvLog WARNING No_data_to_save]
  | _ :: _ =>
      let sheet := HEADER :: map (λ p, stored (cells p)) data in
      [EvSave filename sheet;
       match workbook_save env filename sheet with
       | None => EvLog INFO (Saved_data_to filename)
       | Some e => EvLog ERROR (Error_saving_Excel e)
       end]
  end.

(** An event that only [save_to_excel] produces. *)
Definition is_sink_event (e : event) : bool :=
  match e with
  | EvSave _ _ => true
  | EvLog _ No_data_to_save => true
  | EvLog _ (Saved_data_to _) => true
  | EvLog _ (Error_saving_Excel _) => true
  | _ => false
  end.

Definition has_details (p : property_info) : Prop :=
  is_Some (p_kouzou p) ∧ is_Some (p_shikikin_reikin p).

(** The detail fetches of the records [ps], issued one after the other
    from request [n] on, return [outs] (a body, or [None] after all
    retries failed) and leave the clock at [n']; each body is one for which
    the parser returns a tree. *)
Inductive fetch_seq (env : Env)
  : nat → list property_info → list (option pystr) → nat → Prop :=
| fetch_seq_nil n : fetch_seq env n [] [] n
| fetch_seq_cons n p ps o outs n' :
    result (fetch_page env (p_url p) n) = Returns o →
    (∀ html, o = Some html → parsed env html) →
    fetch_seq env (clock (fetch_page env (p_url p) n)) ps outs n' →
    fetch_seq env n (p :: ps) (o :: outs) n'.

(** The records whose detail fetch returned a body, each merged with the
    details of that body, in the order of [ps]. *)
Fixpoint merged (env : Env) (ps : list property_info) (outs : list (option pystr))
  : list property_info :=
  match ps, outs with
  | p :: ps', Some html :: outs' =>
      update p (details_of env html) :: merged env ps' outs'
  | _ :: ps', None :: outs' => merged env ps' outs'
  | _, _ => []
  end.

(** An event that is no event of the sink and no request of a URL other
    than [url]. *)
Definition fetch_event (url : pystr) (e : event) : Prop :=
  is_sink_event e = false ∧ ∀ u, e = EvGet u → u = url.

(** An event that is neither an event of the sink nor a request. *)
Definition quiet_event (e : event) : Prop :=
  is_sink_event e = false ∧ ∀ u, e ≠ EvGet u.

(** The listing units that [parse_search_results] finds in [html]. *)
Definition listing_units (env : Env) (html : pystr) : list PageElement :=
  match BeautifulSoup env html with
  | inr soup => find_all S_div (Some C_unit_content) soup
  | inl _ => []
  end.

(** The reading of the specification: when every detail fetch returns,
    the sink receives exactly the merged records of the fetches that
    returned a body. *)
Definition succeeded_records_reach_sink : Prop :=
  ∀ env n html ps outs n',
    let index := fetch_page env SEARCH_URL n in
    result index = Returns (Some html) →
    result (parse_search_results env html (clock index)) = Returns ps →
    ps ≠ [] →
    fetch_seq env (clock index) ps outs n' →
    ∃ before,
      events (scrape_and_save env n)
      = before ++ sink_events env OUTPUT_EXCEL_FILE (merged env ps outs)
        ++ [EvLog INFO Scraping_done].

(** The name, price, layout and URL of [p] are read from the listing
    unit [u]: the trimmed texts of its title, price and layout elements and
    the base URL followed by the [href] of its link. *)
Definition read_from (u : PageElement) (p : property_info) : Prop :=
  ∃ title price madori link href,
    find S_div (Some C_unit_title) u = Some title
    ∧ p_name p = strip (text title)
    ∧ find S_span (Some C_price) u = Some price
    ∧ p_price p = strip (text price)
    ∧ find S_span (Some C_madori) u = Some madori
    ∧ p_madori p = strip (text madori)
    ∧ find S_a (Some C_js_gaiyou) u = Some link
    ∧ getitem_attr (Some link) S_href = Returns href
    ∧ p_url p = BASE_URL ++ href.

(** The reading of the specification: in no row that is saved is the name,
    the price, the layout or the URL the sentinel. *)
Definition sink_rows_have_no_sentinel : Prop :=
  ∀ env n filename sheet name price shikikin kouzou madori stations url,
    EvSave filename sheet ∈ events (scrape_and_save env n) →
    [name; price; shikikin; kouzou; madori; stations; url] ∈ tail sheet →
    name ≠ JOUHOU_NASHI ∧ price ≠ JOUHOU_NASHI ∧ madori ≠ JOUHOU_NASHI
    ∧ url ≠ JOUHOU_NASHI.

(** Two runs, one started at request [n1] and one at request [n2], do the
    same: same result, same events, same number of requests. *)
Definition same_run {A} (n1 n2 : nat) (m1 m2 : M A) : Prop :=
  result (m1 n1) = result (m2 n2)
  ∧ events (m1 n1) = events (m2 n2)
  ∧ ∃ d, clock (m1 n1) = n1 + d ∧ clock (m2 n2) = n2 + d.

(** [m1] and [m2] do the same whenever they are started the same number
    of requests after [n1] and [n2]. *)
Definition related (n1 n2 : nat) {A} (m1 m2 : M A) : Prop :=
  ∀ d, same_run (n1 + d) (n2 + d) m1 m2.

(** From request [n1] on in [env1] and from request [n2] on in [env2] the
    network gives the same answers, and the parser and the disk behave the
    same. *)
Definition same_world (env1 env2 : Env) (n1 n2 : nat) : Prop :=
  (∀ url k, requests_get env1 url (n1 + k) = requests_get env2 url (n2 + k))
  ∧ (∀ html, BeautifulSoup env1 html = BeautifulSoup env2 html)
  ∧ (∀ soup, select_fails env1 soup = select_fails env2 soup)
  ∧ (∀ filename sheet,
       workbook_save env1 filename sheet = workbook_save env2 filename sheet).

(** The first workbook saved among [evs]. *)
Fixpoint first_save (evs : list event) : option (pystr * list (list pystr)) :=
  match evs with
  | [] => None
  | EvSave filename sheet :: _ => Some (filename, sheet)
  | _ :: rest => first_save rest
  end.

(** ** Sample environments and documents *)

Definition el (name : pystr) (cls : list pystr) (kids : list PageElement)
  : PageElement := Tag name cls ∅ kids.

Definition txt (s : string) : PageElement := NavigableString (py s).

(** A network on which every request fails with [why]. *)
Definition env_down (why : request_error) : Env :=
  {| requests_get := fun _ _ => inl (RequestException why);
     BeautifulSoup := fun _ => inr (el [] [] []);
     select_fails := fun _ => None;
     workbook_save := fun _ _ => None |}.

(** A network that answers with status [st] from request [k] on and times
    out before. *)
Definition env_up_from (k : nat) (st : Z) : Env :=
  {| requests_get := fun url n =>
       if (n <? k)%nat then inl (RequestException Timeout)
       else inr {| status_code := st; response_text := url |};
     BeautifulSoup := fun _ => inr (el [] [] []);
     select_fails := fun _ => None;
     workbook_save := fun _ _ => None |}.

(** A listing unit with all its parts. *)
Definition unit_ok (name href : string) : PageElement :=
  el S_div [C_unit_content]
    [ el S_div [C_unit_title] [txt name];
      el S_span [C_price] [txt " 8万円 "];
      el S_span [C_madori] [txt "1LDK"];
      el S_div [C_unit_body]
        [el S_div [] [txt "東京都"]; el S_div [] [txt " A駅 歩5分、 B駅 歩9分 "]];
      Tag S_a [C_js_gaiyou] {[ S_href := py href ]} [txt "詳細"] ].

(** A unit without a title element. *)
Definition unit_no_title : PageElement :=
  el S_div [C_unit_content]
    [ el S_span [C_price] [txt "8万円"]; el S_span [C_madori] [txt "1LDK"] ].

(** A unit whose link to the detail page is missing. *)
Definition unit_no_link : PageElement :=
  el S_div [C_unit_content]
    [ el S_div [C_unit_title] [txt "X"];
      el S_span [C_price] [txt "8万円"];
      el S_span [C_madori] [txt "1LDK"];
      el S_div [C_unit_body]
        [el S_div [] [txt "東京都"]; el S_div [] [txt "A駅"]] ].

(** A unit whose body has a single [div]. *)
Definition unit_one_div : PageElement :=
  el S_div [C_unit_content]
    [ el S_div [C_unit_title] [txt "X"];
      el S_span [C_price] [txt "8万円"];
      el S_span [C_madori] [txt "1LDK"];
      el S_div [C_unit_body] [el S_div [] [txt "A駅"]];
      Tag S_a [C_js_gaiyou] {[ S_href := py "/x" ]} [] ].

(** A unit whose link has no [href]. *)
Definition unit_no_href : PageElement :=
  el S_div [C_unit_content]
    [ el S_div [C_unit_title] [txt "X"];
      el S_span [C_price] [txt "8万円"];
      el S_span [C_madori] [txt "1LDK"];
      el S_div [C_unit_body]
        [el S_div [] [txt "東京都"]; el S_div [] [txt "A駅"]];
      el S_a [C_js_gaiyou] [] ].

Definition document (kids : list PageElement) : PageElement :=
  el (py "[document]") [] [el (py "html") [] [el (py "body") [] kids]].

(** A detail page: one table row for each key and value. *)
Definition detail_page (rows : list (string * string)) : PageElement :=
  document
    [el S_table [C_data_table]
       (map (λ kv, el S_tr [] [el S_th [] [txt kv.1]; el S_td [] [txt kv.2]])
          rows)].

(** A site: the units of its index page, the rows of the detail page of
    each URL, and the requests that fail. The body of a page is its URL. *)
Record site := {
  site_units : list PageElement;
  site_rows : pystr → list (string * string);
  site_fails : pystr → nat → bool
}.

Definition env_of_site (s : site) : Env :=
  {| requests_get := λ url n,
       if site_fails s url n then inl (RequestException ConnectionError)
       else inr {| status_code := 200; response_text := url |};
     BeautifulSoup := λ html,
       if bool_decide (html = SEARCH_URL) then inr (document (site_units s))
       else inr (detail_page (site_rows s html));
     select_fails := λ _, None;
     workbook_save := λ _ _, None |}.

(** The site with the given units on its index page, no detail rows and
    no failing request. *)
Definition site_of_units (units : list PageElement) : site :=
  {| site_units := units; site_rows := λ _, []; site_fails := λ _ _, false |}.

(** The site whose detail pages all have the given rows. *)
Definition site_of_rows (rows : list (string * string)) : site :=
  {| site_units := []; site_rows := λ _, rows; site_fails := λ _ _, false |}.

(** Two listings; every request of the detail page of the first fails,
    and every detail page gives [kouzou] as the structure. *)
Definition site_first_detail_down (kouzou : string) : site :=
  {| site_units := [unit_ok "A" "/a"; unit_ok "B" "/b"];
     site_rows := λ _, [("構造", kouzou)];
     site_fails := λ url _, bool_decide (url = BASE_URL ++ py "/a") |}.

(** A record that has only a structure. *)
Definition with_kouzou (s : string) : property_info :=
  {| p_name := []; p_price := []; p_madori := []; p_stations := [];
     p_url := []; p_kouzou := Some (py s);
     p_shikikin_reikin := Some JOUHOU_NASHI |}.

(** ** Measures of a run *)

(** The seconds slept among [evs]. *)
Fixpoint total_sleep (evs : list event) : Z :=
  match evs with
  | [] => 0
  | EvSleep secs :: rest => secs + total_sleep rest
  | _ :: rest => total_sleep rest
  end.

(** An entry "Error fetching ..." of the log. *)
Definition is_fetch_error (e : event) : bool :=
  match e with
  | EvLog ERROR (Error_fetching _ _) => true
  | _ => false
  end.

(** An entry "Failed to fetch detail ..." of the log. *)
Definition is_detail_failure (e : event) : bool :=
  match e with
  | EvLog WARNING (Failed_to_fetch_detail _) => true
  | _ => false
  end.

Definition is_save (e : event) : bool :=
  match e with
  | EvSave _ _ => true
  | _ => false
  end.

(** [s] neither starts nor ends with white space. *)
Definition trimmed (s : pystr) : Prop :=
  (∀ c, head s = Some c → isspace c = false)
  ∧ (∀ c, last s = Some c → isspace c = false).

(** Some tag at or below [e] is a [table] of class [data_table]. *)
Fixpoint has_data_table (e : PageElement) : bool :=
  match e with
  | NavigableString _ => false
  | Tag n cls _ kids =>
      (bool_decide (n = S_table) && bool_decide (C_data_table ∈ cls))
      || existsb has_data_table kids
  end.

(** The number of listing units of the index page, when its fetch at
    request [n] returns a body; zero otherwise. *)
Definition listings_seen (env : Env) (n : nat) : nat :=
  match result (fetch_page env SEARCH_URL n) with
  | Returns (Some html) => length (listing_units env html)
  | _ => 0
  end.

(** A network whose first answer to anything is a failure of the machine
    itself, not of the request. *)
Definition env_broken : Env :=
  {| requests_get := λ _ _, inl (OtherError "MemoryError");
     BeautifulSoup := λ _, inr (el [] [] []);
     select_fails := λ _, None;
     workbook_save := λ _ _, None |}.

(** An event of the steps before the sink: a request, a wait, or a log
    entry about a fetch, about a listing unit or about a detail page. *)
Definition is_progress (e : event) : bool :=
  match e with
  | EvGet _ | EvSleep _ => true
  | EvLog ERROR (Error_fetching _ _) => true
  | EvLog INFO (Retrying_after _) => true
  | EvLog WARNING (Failed_to_extract_property _) => true
  | EvLog WARNING (Failed_to_parse_property_details _) => true
  | EvLog WARNING (Failed_to_fetch_detail _) => true
  | _ => false
  end.

(** An environment whose parser yields [soup] for every page. *)
Definition env_with_soup (soup : PageElement) : Env :=
  {| requests_get := λ url _, inr {| status_code := 200; response_text := url |};
     BeautifulSoup := λ _, inr soup;
     select_fails := λ _, None;
     workbook_save := λ _ _, None |}.

(** A page whose only table has no class. *)
Definition plain_table_page : PageElement :=
  document
    [el S_table []
       [el S_tr [] [el S_th [] [txt "構造"]; el S_td [] [txt "木造"]]]].

(** An environment without a selector engine: [soup.select] raises. *)
Definition env_no_selector : Env :=
  {| requests_get := λ url _, inr {| status_code := 200; response_text := url |};
     BeautifulSoup := λ _, inr plain_table_page;
     select_fails := λ _, Some (OtherError "NotImplementedError");
     workbook_save := λ _ _, None |}.

(** An environment whose parser rejects every page. *)
Definition env_parser_rejects : Env :=
  {| requests_get := λ url _, inr {| status_code := 200; response_text := url |};
     BeautifulSoup := λ _, inl (OtherError "ParserRejectedMarkup");
     select_fails := λ _, None;
     workbook_save := λ _ _, None |}.

(** A site with two listings whose parser rejects every detail page. *)
Definition env_detail_rejected : Env :=
  {| requests_get := λ url _, inr {| status_code := 200; response_text := url |};
     BeautifulSoup := λ html,
       if bool_decide (html = SEARCH_URL)
       then inr (document [unit_ok "A" "/a"; unit_ok "B" "/b"])
       else inl (OtherError "ParserRejectedMarkup");
     select_fails := λ _, None;
     workbook_save := λ _ _, None |}.

(** A listing unit whose title holds the control character U+0007. *)
Definition unit_bell : PageElement :=
  el S_div [C_unit_content]
    [ el S_div [C_unit_title] [NavigableString [65; 7; 66]%N];
      el S_span [C_price] [txt "8万円"];
      el S_span [C_madori] [txt "1LDK"];
      el S_div [C_unit_body]
        [el S_div [] [txt "東京都"]; el S_div [] [txt "A駅"]];
      Tag S_a [C_js_gaiyou] {[ S_href := py "/x" ]} [] ].

(** A record with its detail fields whose name holds U+0007. *)
Definition with_bell : property_info :=
  {| p_name := [65; 7; 66]%N; p_price := []; p_madori := []; p_stations := [];
     p_url := []; p_kouzou := Some JOUHOU_NASHI;
     p_shikikin_reikin := Some JOUHOU_NASHI |}.

(** An environment in which the workbook cannot be written. *)
Definition env_disk_denied : Env :=
  {| requests_get := λ url _, inr {| status_code := 200; response_text := url |};
     BeautifulSoup := λ _, inr (el [] [] []);
     select_fails := λ _, None;
     workbook_save := λ _ _, Some (OtherError "PermissionError") |}.

(** * Properties *)

(** ** Strings *)

Lemma startswith_spec (p s : pystr) :
  startswith p s = true ↔ ∃ post, s = p ++ post.
Proof.
  revert s. induction p as [|a p IH]; intros s; simpl.
  - split; [eauto | done].
  - destruct s as [|b s].
    + split; [done | intros [post H]; discriminate].
    + rewrite andb_true_iff, N.eqb_eq, IH. split.
      * intros [-> [post ->]]. eauto.
      * intros [post H]. injection H as -> ->. eauto.
Qed.

Lemma str_in_spec (needle hay : pystr) :
  str_in needle hay = true ↔ ∃ pre post, hay = pre ++ needle ++ post.
Proof.
  induction hay as [|c hay IH]; simpl.
  - rewrite orb_false_r, startswith_spec. split.
    + intros [post H]. exists [], post. done.
    + intros [pre [post H]]. destruct pre; [eauto|discriminate].
  - rewrite orb_true_iff, startswith_spec, IH. split.
    + intros [[post H] | [pre [post H]]].
      * exists [], post. done.
      * exists (c :: pre), post. by rewrite H.
    + intros [[|c' pre] [post H]].
      * left. eauto.
      * right. injection H as -> ->. eauto.
Qed.

Lemma split_aux_length (sep : pystr) (skip : nat) (cur s : pystr) :
  (1 ≤ length (split_aux sep skip cur s))%nat.
Proof.
  revert skip cur. induction s as [|c s IH]; intros skip cur; simpl.
  - lia.
  - destruct skip as [|k]; [|apply IH].
    destruct (startswith sep (c :: s)); simpl; [lia | apply IH].
Qed.

Lemma split_length (s sep : pystr) : (1 ≤ length (split s sep))%nat.
Proof. apply split_aux_length. Qed.

Lemma lstrip_spec (s : pystr) :
  ∃ ws, s = ws ++ lstrip s ∧ forallb isspace ws = true
        ∧ (∀ c, head (lstrip s) = Some c → isspace c = false).
Proof.
  induction s as [|c s (ws & E & Hws & Hhd)]; simpl.
  - exists []. done.
  - destruct (isspace c) eqn:Hc.
    + exists (c :: ws). simpl. rewrite Hc, Hws. split; [by f_equal|done].
    + exists []. simpl. split; [done|]. split; [done|]. by intros ? [= <-].
Qed.

(** [strip] removes a run of white space at each end and nothing else. *)
Lemma strip_spec (s : pystr) :
  ∃ l r, s = l ++ strip s ++ r
         ∧ forallb isspace l = true ∧ forallb isspace r = true
         ∧ (∀ c, head (strip s) = Some c → isspace c = false)
         ∧ (∀ c, last (strip s) = Some c → isspace c = false).
Proof.
  destruct (lstrip_spec s) as (l & El & Hl & Hhd).
  destruct (lstrip_spec (reverse (lstrip s))) as (r & Er & Hr & Hlast).
  exists l, (reverse r). unfold strip, rstrip.
  assert (Erev : lstrip s = reverse (lstrip (reverse (lstrip s))) ++ reverse r).
  { rewrite <- reverse_app, <- Er. by rewrite reverse_involutive. }
  repeat split.
  - by rewrite <- Erev.
  - done.
  - rewrite forallb_forall in Hr |- *. intros c Hc. apply Hr.
    apply list_elem_of_In, elem_of_reverse. by apply list_elem_of_In.
  - intros c Hc. apply Hhd. rewrite Erev.
    by destruct (reverse (lstrip (reverse (lstrip s)))).
  - intros c Hc. apply Hlast. by rewrite last_reverse in Hc.
Qed.

(** The literals are decoded to code points. *)
Lemma py_literals :
  MOKUZOU = [0x6728; 0x9020]%N ∧ K_KOUZOU = [0x69CB; 0x9020]%N
  ∧ SHIKIKIN = [0x6577; 0x91D1]%N ∧ TOUTEN = [0x3001]%N
  ∧ JOUHOU_NASHI = [0x60C5; 0x5831; 0x306A; 0x3057]%N.
Proof. by split_and!. Qed.

(** ** [fetch_page] *)

Lemma fetch_attempt_run (env : Env) (url : pystr) (i n : nat) :
  fetch_attempt env url i n =
  match attempt_result (requests_get env url n) with
  | Returns body => Run (Returns (Some body)) [EvGet url] (S n)
  | Raises e =>
      if is_RequestException e
      then Run (Returns None)
             ([EvGet url; EvLog ERROR (Error_fetching url e)]
              ++ (if i <? MAX_RETRY - 1
                  then [EvLog INFO (Retrying_after RETRY_INTERVAL);
                        EvSleep RETRY_INTERVAL]
                  else [])) (S n)
      else Run (Raises e) [EvGet url] (S n)
  end.
Proof.
  unfold fetch_attempt, try_except, bind, http_get, attempt_result. simpl.
  destruct (requests_get env url n) as [e|resp]; simpl.
  - destruct (is_RequestException e); [|done].
    by destruct (i <? _).
  - unfold lift. destruct (raise_for_status resp) as [[]|e]; simpl; [done|].
    destruct (is_RequestException e); [|done].
    by destruct (i <? _).
Qed.

Lemma raise_for_status_2xx (resp : response) :
  (200 ≤ status_code resp < 300)%Z → raise_for_status resp = Returns tt.
Proof.
  intros H. unfold raise_for_status.
  destruct (400 <=? status_code resp)%Z eqn:E; [|done].
  apply Z.leb_le in E. lia.
Qed.

(** The three passes of the loop of [fetch_page], written out. *)
Lemma fetch_page_run (env : Env) (url : pystr) (n : nat) :
  fetch_page env url n =
  match attempt_result (requests_get env url n) with
  | Returns body => Run (Returns (Some body)) [EvGet url] (S n)
  | Raises e0 =>
    if negb (is_RequestException e0) then Run (Raises e0) [EvGet url] (S n)
    else
      match attempt_result (requests_get env url (S n)) with
      | Returns body =>
          Run (Returns (Some body))
            (failed_attempt url e0 true ++ [EvGet url]) (S (S n))
      | Raises e1 =>
        if negb (is_RequestException e1)
        then Run (Raises e1)
               (failed_attempt url e0 true ++ [EvGet url]) (S (S n))
        else
          match attempt_result (requests_get env url (S (S n))) with
          | Returns body =>
              Run (Returns (Some body))
                (failed_attempt url e0 true ++ failed_attempt url e1 true
                 ++ [EvGet url]) (S (S (S n)))
          | Raises e2 =>
            if negb (is_RequestException e2)
            then Run (Raises e2)
                   (failed_attempt url e0 true ++ failed_attempt url e1 true
                    ++ [EvGet url]) (S (S (S n)))
            else Run (Returns None)
                   (failed_attempt url e0 true ++ failed_attempt url e1 true
                    ++ failed_attempt url e2 false) (S (S (S n)))
          end
      end
  end.
Proof.
  unfold fetch_page, MAX_RETRY. simpl. unfold bind.
  rewrite !fetch_attempt_run.
  destruct (attempt_result (requests_get env url n)) as [b0|e0]; [done|].
  destruct (is_RequestException e0); [|done]. simpl.
  rewrite !fetch_attempt_run.
  destruct (attempt_result (requests_get env url (S n))) as [b1|e1]; [done|].
  destruct (is_RequestException e1); [|done]. simpl.
  rewrite !fetch_attempt_run.
  destruct (attempt_result (requests_get env url (S (S n)))) as [b2|e2]; [done|].
  by destruct (is_RequestException e2).
Qed.

Ltac clock_norm :=
  repeat match goal with
    | H : context [?n + 0] |- _ => replace (n + 0) with n in H by lia
    | H : context [?n + 1] |- _ => replace (n + 1) with (S n) in H by lia
    | H : context [?n + 2] |- _ => replace (n + 2) with (S (S n)) in H by lia
    | |- context [?n + 0] => replace (n + 0) with n by lia
    | |- context [?n + 1] => replace (n + 1) with (S n) by lia
    | |- context [?n + 2] => replace (n + 2) with (S (S n)) by lia
    | |- context [?n + 3] => replace (n + 3) with (S (S (S n))) by lia
    end.

(** C1. [fetch_page] issues between one and [MAX_RETRY] requests, with a
    wait of exactly [RETRY_INTERVAL] seconds between two consecutive ones
    and none after the last; on the first attempt that succeeds, after
    attempts that all failed with a caught error, it returns that body at
    once, the request being its last event; and an answer with a 2xx status
    is a success. *)
Theorem C1_fetch_page_bounded_retry (env : Env) (url : pystr) (n : nat) :
  let r := fetch_page env url n in
  (∃ k, 1 ≤ k ≤ MAX_RETRY ∧ clock r = n + k
        ∧ List.filter is_get_or_sleep (events r) = attempts_with_waits url k)
  ∧ (∀ k body,
       k < MAX_RETRY →
       (∀ j, j < k → ∃ e, retried (requests_get env url (n + j)) e) →
       attempt_result (requests_get env url (n + k)) = Returns body →
       result r = Returns (Some body) ∧ clock r = n + S k
       ∧ last (events r) = Some (EvGet url))
  ∧ (∀ m resp,
       requests_get env url m = inr resp →
       (200 ≤ status_code resp < 300)%Z →
       attempt_result (requests_get env url m) = Returns (response_text resp)).
Proof.
  intros r. subst r. split; [|split].
  - rewrite fetch_page_run. unfold MAX_RETRY.
    destruct (attempt_result (requests_get env url n)) as [b0|e0].
    { exists 1. simpl. repeat split; lia. }
    destruct (is_RequestException e0); simpl;
      [|exists 1; simpl; repeat split; lia].
    destruct (attempt_result (requests_get env url (S n))) as [b1|e1].
    { exists 2. simpl. repeat split; lia. }
    destruct (is_RequestException e1); simpl;
      [|exists 2; simpl; repeat split; lia].
    destruct (attempt_result (requests_get env url (S (S n)))) as [b2|e2].
    { exists 3. simpl. repeat split; lia. }
    destruct (is_RequestException e2); simpl;
      exists 3; simpl; repeat split; lia.
  - intros k body Hk Hfail Hok. rewrite fetch_page_run. unfold MAX_RETRY in Hk.
    destruct k as [|[|[|k]]]; [| | |lia].
    + clock_norm. rewrite Hok. simpl. repeat split; lia.
    + destruct (Hfail 0) as (e0 & He0 & Hc0); [lia|].
      clock_norm. rewrite He0, Hc0, Hok. simpl. repeat split; lia.
    + destruct (Hfail 0) as (e0 & He0 & Hc0); [lia|].
      destruct (Hfail 1) as (e1 & He1 & Hc1); [lia|].
      clock_norm. rewrite He0, Hc0, He1, Hc1, Hok. simpl. repeat split; lia.
  - intros m resp Hget Hst. rewrite Hget. simpl.
    by rewrite raise_for_status_2xx.
Qed.

(** When every attempt fails with a caught error, [fetch_page] returns
    [None]; its events are those of the three failed attempts, the last
    one without a wait. *)
Lemma fetch_page_exhausted (env : Env) (url : pystr) (n : nat) (last_error : exn) :
  exhausted env url n last_error →
  ∃ e0 e1,
    fetch_page env url n =
    Run (Returns None)
      (failed_attempt url e0 true ++ failed_attempt url e1 true
       ++ failed_attempt url last_error false) (n + MAX_RETRY).
Proof.
  intros [Hall [Hlast Hcl]]. unfold MAX_RETRY in *. simpl in Hlast.
  destruct (Hall 0) as (e0 & He0 & Hc0); [lia|].
  destruct (Hall 1) as (e1 & He1 & Hc1); [lia|].
  clock_norm. exists e0, e1.
  rewrite fetch_page_run, He0, Hc0, He1, Hc1, Hlast, Hcl. done.
Qed.

Lemma C1_fetch_page_bounded_retry_witness :
  let r := fetch_page (env_up_from 1 200) SEARCH_URL 0 in
  result r = Returns (Some SEARCH_URL) ∧ clock r = 0 + 2
  ∧ last (events r) = Some (EvGet SEARCH_URL).
Proof.
  apply (C1_fetch_page_bounded_retry (env_up_from 1 200) SEARCH_URL 0).
  - unfold MAX_RETRY. lia.
  - intros j Hj. assert (j = 0) as -> by lia.
    exists (RequestException Timeout). split; reflexivity.
  - reflexivity.
Defined.

Lemma env_down_exhausted (why : request_error) (url : pystr) (n : nat) :
  exhausted (env_down why) url n (RequestException why).
Proof.
  split; [intros j _; exists (RequestException why)|]; split; reflexivity.
Qed.

(** C2, as the specification states it, fails: after exhausting its
    attempts [fetch_page] returns the same value whatever the error was, so
    the error cannot be read from it. *)
Lemma C2_failure_value_has_no_error : ¬ failure_carries_error_and_url.
Proof.
  intros [read H].
  pose proof (H _ SEARCH_URL 0 _ (env_down_exhausted Timeout SEARCH_URL 0)) as H1.
  pose proof (H _ SEARCH_URL 0 _ (env_down_exhausted ConnectionError SEARCH_URL 0))
    as H2.
  change (result (fetch_page (env_down ConnectionError) SEARCH_URL 0))
    with (result (fetch_page (env_down Timeout) SEARCH_URL 0)) in H2.
  rewrite H1 in H2. discriminate H2.
Qed.

(** C2, amended. When all attempts are exhausted [fetch_page] returns
    [None], whatever the URL and the errors; the last error and the URL are
    in the last event of the call, an error entry of the log. *)
Theorem C2_exhausted_returns_none
    (env : Env) (url : pystr) (n : nat) (last_error : exn) :
  exhausted env url n last_error →
  let r := fetch_page env url n in
  result r = Returns None
  ∧ last (events r) = Some (EvLog ERROR (Error_fetching url last_error))
  ∧ clock r = n + MAX_RETRY.
Proof.
  intros H. destruct (fetch_page_exhausted _ _ _ _ H) as (e0 & e1 & ->).
  done.
Qed.

Lemma C2_exhausted_returns_none_witness :
  let r := fetch_page (env_down Timeout) SEARCH_URL 0 in
  result r = Returns None
  ∧ last (events r)
    = Some (EvLog ERROR (Error_fetching SEARCH_URL (RequestException Timeout)))
  ∧ clock r = 0 + MAX_RETRY.
Proof.
  apply (C2_exhausted_returns_none (env_down Timeout) SEARCH_URL 0).
  split; [intros j _; exists (RequestException Timeout)|]; split; reflexivity.
Defined.

(** ** The filter *)

Lemma filter_mokuzou_filter (all_data : list property_info) :
  Forall (λ p, is_Some (p_kouzou p)) all_data →
  filter_mokuzou all_data
  = Returns (List.filter (λ p, negb (is_mokuzou p)) all_data).
Proof.
  induction 1 as [|p rest [s Hs] _ IH]; [done|].
  simpl. unfold is_mokuzou. rewrite Hs, IH. simpl.
  by destruct (str_in MOKUZOU s).
Qed.

(** C7. On records that have a structure, line 165 keeps, in order,
    exactly the records whose structure does not contain "木造"; on the
    structures "木造アパート", "RC造", "鉄骨造" it keeps the last two. *)
Theorem C7_filter_excludes_mokuzou :
  (∀ all_data,
     Forall (λ p, is_Some (p_kouzou p)) all_data →
     filter_mokuzou all_data
     = Returns (List.filter (λ p, negb (is_mokuzou p)) all_data))
  ∧ (∀ p s, p_kouzou p = Some s →
       (is_mokuzou p = true ↔ contains MOKUZOU s))
  ∧ filter_mokuzou
      [with_kouzou "木造アパート"; with_kouzou "RC造"; with_kouzou "鉄骨造"]
    = Returns [with_kouzou "RC造"; with_kouzou "鉄骨造"].
Proof.
  split; [exact filter_mokuzou_filter|]. split; [|reflexivity].
  intros p s Hs. unfold is_mokuzou, contains. rewrite Hs. apply str_in_spec.
Qed.

Lemma C7_filter_excludes_mokuzou_witness :
  filter_mokuzou [with_kouzou "木造"; with_kouzou "鉄骨造"; with_kouzou "RC造"]
  = Returns
      (List.filter (λ p, negb (is_mokuzou p))
         [with_kouzou "木造"; with_kouzou "鉄骨造"; with_kouzou "RC造"]).
Proof.
  apply (proj1 C7_filter_excludes_mokuzou).
  repeat constructor; eexists; reflexivity.
Defined.

(** ** [parse_search_results] *)

Lemma parse_units_clock (units : list PageElement)
    (data : list property_info) (n : nat) :
  clock (parse_units units data n) = n.
Proof.
  revert data. induction units as [|u rest IH]; intros data; [done|].
  simpl. unfold bind, try_except, lift. simpl.
  destruct (property_of_unit u) as [p|e]; simpl.
  - destruct (result (parse_units rest (data ++ [p]) n)); simpl; apply IH.
  - destruct (is_AttributeError e); simpl; [|done].
    destruct (result (parse_units rest data n)); simpl; apply IH.
Qed.

(** When every unit is well-formed or lacks one of the elements whose
    [.text] is read, the well-formed ones are returned in order and each
    other one is logged. *)
Lemma parse_units_skippable (units : list PageElement)
    (data : list property_info) (n : nat) :
  forallb skippable units = true →
  parse_units units data n
  = Run (Returns (data ++ extracted units)) (warnings units) n.
Proof.
  revert data. induction units as [|u rest IH]; intros data H; simpl.
  - by rewrite app_nil_r.
  - simpl in H. apply andb_true_iff in H as [Hu Hrest].
    unfold skippable in Hu. unfold bind, try_except, lift. simpl.
    destruct (property_of_unit u) as [p|e]; simpl.
    + rewrite (IH _ Hrest). simpl. by rewrite <- app_assoc.
    + rewrite Hu. simpl. by rewrite (IH _ Hrest).
Qed.

(** Whenever the loop returns, it returns the records of the well-formed
    units, in order, and has logged one warning for each other unit. *)
Lemma parse_units_returns (units : list PageElement)
    (data out : list property_info) (n : nat) :
  result (parse_units units data n) = Returns out →
  parse_units units data n
  = Run (Returns (data ++ extracted units)) (warnings units) n.
Proof.
  revert data. induction units as [|u rest IH]; intros data; simpl.
  - intros _. by rewrite app_nil_r.
  - unfold bind, try_except, lift. simpl.
    destruct (property_of_unit u) as [p|e]; simpl.
    + intros H. rewrite (IH (data ++ [p])); [by rewrite <- app_assoc|].
      by destruct (result (parse_units rest (data ++ [p]) n)).
    + destruct (is_AttributeError e); simpl; [|done].
      intros H. rewrite (IH data); [done|].
      by destruct (result (parse_units rest data n)).
Qed.

Lemma extracted_elem (units : list PageElement) (p : property_info) :
  p ∈ extracted units → ∃ u, u ∈ units ∧ property_of_unit u = Returns p.
Proof.
  induction units as [|u rest IH]; simpl; [by intros ?%elem_of_nil|].
  destruct (property_of_unit u) as [q|e] eqn:E.
  - intros [->|H]%elem_of_cons.
    + exists u. split; [left|done].
    + destruct (IH H) as (u' & ? & ?). exists u'. split; [by right|done].
  - intros H. destruct (IH H) as (u' & ? & ?). exists u'. split; [by right|done].
Qed.

(** What a returned record is made of. *)
Lemma property_of_unit_returns (u : PageElement) (p : property_info) :
  property_of_unit u = Returns p →
  ∃ title price madori body second link,
    find S_div (Some C_unit_title) u = Some title
    ∧ find S_span (Some C_price) u = Some price
    ∧ find S_span (Some C_madori) u = Some madori
    ∧ find S_div (Some C_unit_body) u = Some body
    ∧ find_all S_div None body !! 1 = Some second
    ∧ find S_a (Some C_js_gaiyou) u = Some link
    ∧ ∃ href,
        getitem_attr (Some link) S_href = Returns href
        ∧ p = {| p_name := strip (text title);
                 p_price := strip (text price);
                 p_madori := strip (text madori);
                 p_stations := map strip (split (strip (text second)) TOUTEN);
                 p_url := BASE_URL ++ href;
                 p_kouzou := None; p_shikikin_reikin := None |}.
Proof.
  unfold property_of_unit, getattr_text, getattr_find_all, getitem_index.
  destruct (find S_div (Some C_unit_title) u) as [title|]; [|done].
  destruct (find S_span (Some C_price) u) as [price|]; [|done].
  destruct (find S_span (Some C_madori) u) as [madori|]; [|done].
  destruct (find S_div (Some C_unit_body) u) as [body|]; [|done].
  cbn [obind].
  destruct (find_all S_div None body !! 1) as [second|] eqn:E2; [|done].
  cbn [obind].
  destruct (find S_a (Some C_js_gaiyou) u) as [link|]; [|done].
  destruct (getitem_attr (Some link) S_href) as [href|e] eqn:E; [|done].
  cbn [obind]. intros [= <-].
  exists title, price, madori, body, second, link.
  split_and!; [done..|]. by exists href.
Qed.

(** On a tree of the parser [parse_search_results] is the loop over the
    listing units of the tree. *)
Lemma parse_search_results_parsed (env : Env) (html : pystr) (n : nat)
    (soup : PageElement) :
  BeautifulSoup env html = inr soup →
  parse_search_results env html n
  = parse_units (find_all S_div (Some C_unit_content) soup) [] n
  ∧ listing_units env html = find_all S_div (Some C_unit_content) soup.
Proof.
  intros H. unfold parse_search_results, listing_units, soup_of, bind, lift.
  rewrite H. cbn [result events clock app].
  by destruct (parse_units _ [] n).
Qed.

(** The call of the parser (line 48) is outside the [try]: what it raises
    leaves [parse_search_results]. *)
Lemma parse_search_results_rejected (env : Env) (html : pystr) (n : nat)
    (e : exn) :
  BeautifulSoup env html = inl e →
  parse_search_results env html n = Run (Raises e) [] n.
Proof.
  intros H. unfold parse_search_results, soup_of, bind, lift. by rewrite H.
Qed.

Lemma parse_search_results_returns (env : Env) (html : pystr) (n : nat)
    (out : list property_info) :
  result (parse_search_results env html n) = Returns out →
  parsed env html
  ∧ parse_search_results env html n
    = Run (Returns (extracted (listing_units env html)))
        (warnings (listing_units env html)) n.
Proof.
  destruct (BeautifulSoup env html) as [e|soup] eqn:E.
  - by rewrite (parse_search_results_rejected _ _ _ _ E).
  - destruct (parse_search_results_parsed _ _ n _ E) as [-> ->]. intros H.
    split; [by exists soup|]. by rewrite (parse_units_returns _ _ _ _ H).
Qed.

(** C3 fails on the code. A unit that lacks its link, the second [div] of
    its body or the [href] of its link is malformed, yet it is not skipped:
    [parse_search_results] raises, nothing is logged and the record of the
    well-formed unit before it is lost. A unit that lacks its title is
    skipped with a warning. *)
Theorem C3_malformed_unit_raises :
  let parse units :=
    parse_search_results (env_of_site (site_of_units units)) SEARCH_URL 0 in
  (∃ p, property_of_unit (unit_ok "A" "/a") = Returns p)
  ∧ parse [unit_ok "A" "/a"; unit_no_link] = Run (Raises TypeError) [] 0
  ∧ parse [unit_ok "A" "/a"; unit_one_div] = Run (Raises IndexError) [] 0
  ∧ parse [unit_ok "A" "/a"; unit_no_href] = Run (Raises (KeyError S_href)) [] 0
  ∧ (∃ p, parse [unit_ok "A" "/a"; unit_no_title]
          = Run (Returns [p])
              [EvLog WARNING (Failed_to_extract_property AttributeError)] 0).
Proof.
  repeat split; try (eexists; vm_compute; reflexivity); vm_compute; reflexivity.
Qed.

(** C10. Splitting on "、" and trimming yields at least one segment, and
    every record that [parse_search_results] returns has at least one
    station. *)
Theorem C10_stations_nonempty :
  (∀ s, 1 ≤ length (map strip (split s TOUTEN)))
  ∧ (∀ env html n data,
       result (parse_search_results env html n) = Returns data →
       ∀ p, p ∈ data → 1 ≤ length (p_stations p)).
Proof.
  split.
  - intros s. rewrite length_map. apply split_length.
  - intros env html n data H p Hp.
    destruct (parse_search_results_returns _ _ _ _ H) as [_ Hrun].
    rewrite Hrun in H. injection H as <-.
    apply extracted_elem in Hp as (u & _ & Hu).
    apply property_of_unit_returns in Hu
      as (? & ? & ? & ? & second & ? & ? & ? & ? & ? & ? & ? & ? & ? & ->).
    simpl. rewrite length_map. apply split_length.
Qed.

Lemma C10_stations_nonempty_witness :
  Forall (λ p, 1 ≤ length (p_stations p))
    (extracted [unit_ok "A" "/a"; unit_no_title; unit_ok "B" "/b"]).
Proof.
  apply Forall_forall.
  apply (proj2 C10_stations_nonempty
           (env_of_site
              (site_of_units [unit_ok "A" "/a"; unit_no_title; unit_ok "B" "/b"]))
           SEARCH_URL 0).
  vm_compute. reflexivity.
Defined.

(** ** [parse_property_details] *)

(** The body of the loop never raises: [.text] is read only from cells
    that were found. *)
Lemma scan_row_returns (row : PageElement) (d : details) :
  ∃ d', scan_row row d = Returns d'
        ∧ d_kouzou d' = default (d_kouzou d) (row_value K_KOUZOU row)
        ∧ d_shikikin_reikin d'
          = default (d_shikikin_reikin d) (row_shikikin row).
Proof.
  unfold scan_row, row_value, row_shikikin.
  destruct (find S_th None row) as [header|];
    destruct (find S_td None row) as [value|]; simpl; eauto.
  destruct (str_in K_KOUZOU (strip (text header))); simpl; eauto.
  destruct (str_in SHIKIKIN (strip (text header))); simpl; eauto.
Qed.

Lemma last_omap_cons {A B} (f : A → option B) (x : A) (l : list A) :
  last (omap f (x :: l))
  = match last (omap f l) with Some y => Some y | None => f x end.
Proof.
  change (omap f (x :: l))
    with (match f x with Some y => y :: omap f l | None => omap f l end).
  destruct (f x); [rewrite last_cons|]; by destruct (last (omap f l)).
Qed.

Lemma scan_rows_returns (rows : list PageElement) (d : details) :
  ∃ d', scan_rows rows d = (None, d')
        ∧ d_kouzou d'
          = default (d_kouzou d) (last (omap (row_value K_KOUZOU) rows))
        ∧ d_shikikin_reikin d'
          = default (d_shikikin_reikin d) (last (omap row_shikikin rows)).
Proof.
  revert d. induction rows as [|row rest IH]; intros d; [by exists d|].
  cbn [scan_rows].
  destruct (scan_row_returns row d) as (d1 & -> & H1 & H2).
  destruct (IH d1) as (d' & -> & H1' & H2'). exists d'. split; [done|].
  split.
  - rewrite H1', H1, last_omap_cons.
    destruct (row_value K_KOUZOU row) as [v|];
      by destruct (last (omap (row_value K_KOUZOU) rest)).
  - rewrite H2', H2, last_omap_cons.
    destruct (row_shikikin row) as [v|];
      by destruct (last (omap row_shikikin rest)).
Qed.

(** On a tree of the parser [parse_property_details] returns: the details
    read from the rows and no log entry, or the defaults and a warning when
    [soup.select] raises. *)
Lemma parse_property_details_parsed (env : Env) (html : pystr) (n : nat)
    (soup : PageElement) :
  BeautifulSoup env html = inr soup →
  parse_property_details env html n
  = Run (Returns (details_of env html)) (details_events env html) n
  ∧ match select_fails env soup with
    | Some e => details_of env html = DEFAULT_DETAILS
    | None =>
        d_kouzou (details_of env html)
        = default JOUHOU_NASHI (last (kouzou_values soup))
        ∧ d_shikikin_reikin (details_of env html)
          = default JOUHOU_NASHI (last (shikikin_values soup))
    end.
Proof.
  intros H.
  unfold parse_property_details, details_of, details_events, soup_of, bind, lift.
  rewrite H. cbn [result events clock app]. unfold try_rows, select.
  destruct (select_fails env soup) as [e|]; [done|].
  unfold kouzou_values, shikikin_values.
  by destruct (scan_rows_returns (select_table_rows soup) DEFAULT_DETAILS)
    as (d & -> & Hk & Hs).
Qed.

(** The call of the parser (line 79) is outside the [try]: what it raises
    leaves [parse_property_details]. *)
Lemma parse_property_details_rejected (env : Env) (html : pystr) (n : nat)
    (e : exn) :
  BeautifulSoup env html = inl e →
  parse_property_details env html n = Run (Raises e) [] n.
Proof.
  intros H. unfold parse_property_details, soup_of, bind, lift. by rewrite H.
Qed.

(** C8, as the specification states it, fails: of two rows whose key text
    contains the structure marker only the value of the later one is
    returned. *)
Lemma C8_earlier_kouzou_row_is_overwritten : ¬ every_kouzou_row_is_returned.
Proof.
  intros H.
  destruct (H (env_of_site (site_of_rows [("構造", "鉄骨造"); ("建物構造", "木造")]))
              [] 0
              (detail_page [("構造", "鉄骨造"); ("建物構造", "木造")])
              (el S_tr [] [el S_th [] [txt "構造"]; el S_td [] [txt "鉄骨造"]])
              (el S_th [] [txt "構造"]) (el S_td [] [txt "鉄骨造"]))
    as (d & Hd & Hk).
  - reflexivity.
  - reflexivity.
  - vm_compute. left.
  - reflexivity.
  - reflexivity.
  - exists [], []. reflexivity.
  - vm_compute in Hd. injection Hd as <-. vm_compute in Hk. discriminate Hk.
Qed.

(** C8, amended. On the tree that the parser returns for the document,
    [parse_property_details] returns without raising. An exception of its
    [try] block, which only [soup.select] can raise, is caught and logged
    as a warning, and the two sentinel defaults are returned unchanged.
    Otherwise nothing is logged; the structure returned is the sentinel
    when no row with both cells has a key text containing the structure
    marker, and otherwise the trimmed text of the value cell of the last
    such row; likewise the deposit, for the rows whose key text contains the
    deposit marker and not the structure marker. *)
Theorem C8_parse_property_details_returns
    (env : Env) (html : pystr) (n : nat) (soup : PageElement) :
  BeautifulSoup env html = inr soup →
  (∀ e, select_fails env soup = Some e →
     parse_property_details env html n
     = Run (Returns DEFAULT_DETAILS)
         [EvLog WARNING (Failed_to_parse_property_details e)] n)
  ∧ (select_fails env soup = None →
     ∃ d, parse_property_details env html n = Run (Returns d) [] n
          ∧ d_kouzou d = default JOUHOU_NASHI (last (kouzou_values soup))
          ∧ d_shikikin_reikin d
            = default JOUHOU_NASHI (last (shikikin_values soup))).
Proof.
  intros H. destruct (parse_property_details_parsed env html n soup H) as [-> Hd].
  unfold details_events. rewrite H. split.
  - intros e He. rewrite He in *. by rewrite Hd.
  - intros He. rewrite He in *. by exists (details_of env html).
Qed.

Lemma C8_parse_property_details_returns_witness :
  parse_property_details env_no_selector [] 0
  = Run (Returns DEFAULT_DETAILS)
      [EvLog WARNING
         (Failed_to_parse_property_details (OtherError "NotImplementedError"))] 0
  ∧ ∃ d, parse_property_details
           (env_of_site (site_of_rows [("構造", "鉄骨造"); ("建物構造", "木造")]))
           [] 0
         = Run (Returns d) [] 0
         ∧ d_kouzou d
           = default JOUHOU_NASHI
               (last (kouzou_values
                        (detail_page [("構造", "鉄骨造"); ("建物構造", "木造")])))
         ∧ d_shikikin_reikin d
           = default JOUHOU_NASHI
               (last (shikikin_values
                        (detail_page [("構造", "鉄骨造"); ("建物構造", "木造")]))).
Proof.
  split.
  - apply (proj1 (C8_parse_property_details_returns env_no_selector [] 0
                    plain_table_page eq_refl)
             (OtherError "NotImplementedError") eq_refl).
  - apply (proj2 (C8_parse_property_details_returns
                    (env_of_site
                       (site_of_rows [("構造", "鉄骨造"); ("建物構造", "木造")]))
                    [] 0
                    (detail_page [("構造", "鉄骨造"); ("建物構造", "木造")])
                    eq_refl)
             eq_refl).
Defined.

(** ** The pipeline *)

Lemma parse_property_details_run (env : Env) (html : pystr) (n : nat) :
  parse_property_details env html n
  = match BeautifulSoup env html with
    | inr _ => Run (Returns (details_of env html)) (details_events env html) n
    | inl e => Run (Raises e) [] n
    end.
Proof.
  destruct (BeautifulSoup env html) as [e|soup] eqn:E.
  - by apply parse_property_details_rejected.
  - by destruct (parse_property_details_parsed env html n soup E).
Qed.

(** One pass through the loop of lines 153-162. *)
Lemma fetch_details_cons (env : Env) (p : property_info)
    (rest acc : list property_info) (n : nat) :
  fetch_details env (p :: rest) acc n =
  let r := fetch_page env (p_url p) n in
  match result r with
  | Raises e => Run (Raises e) (events r) (clock r)
  | Returns None =>
      let r' := fetch_details env rest acc (clock r) in
      Run (result r')
        (events r ++ EvLog WARNING (Failed_to_fetch_detail (p_url p)) :: events r')
        (clock r')
  | Returns (Some html) =>
      match BeautifulSoup env html with
      | inl e => Run (Raises e) (events r) (clock r)
      | inr _ =>
          let r' := fetch_details env rest
                      (acc ++ [update p (details_of env html)]) (clock r) in
          Run (result r') (events r ++ details_events env html ++ events r')
            (clock r')
      end
  end.
Proof.
  cbn [fetch_details]. unfold bind.
  destruct (result (fetch_page env (p_url p) n)) as [[html|]|e]; [| |done].
  - rewrite parse_property_details_run.
    destruct (BeautifulSoup env html) as [e|soup]; cbn [result events clock].
    + by rewrite app_nil_r.
    + done.
  - unfold log. cbn [result events clock].
    by destruct (result (fetch_details env rest acc _)).
Qed.

(** The sheet keeps the first 32767 code points of each cell of a row, or
    refuses the row. *)
Lemma check_cells_run (row : list pystr) :
  check_cells row
  = if forallb legal row then Returns (stored row)
    else Raises IllegalCharacterError.
Proof.
  induction row as [|value rest IH]; [done|].
  cbn [check_cells forallb stored map]. unfold check_string, legal at 1.
  destruct (existsb is_illegal (slice 32767 value)); [done|].
  cbn [obind negb andb]. rewrite IH. by destruct (forallb legal rest).
Qed.

Lemma header_is_stored : sheet_append [] HEADER = Returns [HEADER].
Proof. vm_compute. reflexivity. Qed.

(** The loop of lines 117-128 on records that have their detail fields:
    the rows of all records, or the exception of the first row that the
    sheet refuses. *)
Lemma append_rows_run (data : list property_info) (sheet : list (list pystr)) :
  Forall has_details data →
  append_rows data sheet
  = if forallb writable data
    then Returns (sheet ++ map (λ p, stored (cells p)) data)
    else Raises IllegalCharacterError.
Proof.
  intros H. revert sheet.
  induction H as [|p rest [[k Hk] [s Hs]] _ IH]; intros sheet.
  - cbn [append_rows forallb map]. by rewrite app_nil_r.
  - cbn [append_rows forallb map]. unfold row_of_item, sheet_append.
    rewrite Hk, Hs. cbn [getitem_key obind]. rewrite check_cells_run.
    assert (Hc : [p_name p; p_price p; s; k; p_madori p;
                  join COMMA_SPACE (p_stations p); p_url p] = cells p)
      by (unfold cells; by rewrite Hk, Hs).
    rewrite Hc. fold (writable p).
    destruct (writable p); cbn [obind andb]; [|done].
    rewrite IH. by rewrite <- app_assoc.
Qed.

(** [save_to_excel] on records that have their detail fields: it returns
    after the events of the sink, or raises, before anything is saved or
    logged, when the sheet refuses a row. *)
Lemma save_to_excel_cases (env : Env) (data : list property_info)
    (filename : pystr) (n : nat) :
  Forall has_details data →
  save_to_excel env data filename n
  = if forallb writable data
    then Run (Returns tt) (sink_events env filename data) n
    else Run (Raises IllegalCharacterError) [] n.
Proof.
  intros H. destruct data as [|p rest]; [done|].
  unfold save_to_excel, bind, lift. cbn [result events clock].
  rewrite header_is_stored. cbn [obind]. rewrite (append_rows_run _ _ H).
  destruct (forallb writable (p :: rest)); [|done].
  unfold try_except, save_workbook, bind, log, sink_events.
  cbn [result events clock app].
  by destruct (workbook_save env filename _).
Qed.

Lemma save_to_excel_run (env : Env) (data : list property_info)
    (filename : pystr) (n : nat) :
  Forall has_details data →
  forallb writable data = true →
  save_to_excel env data filename n
  = Run (Returns tt) (sink_events env filename data) n.
Proof. intros H Hw. by rewrite save_to_excel_cases, Hw. Qed.

(** [scrape_and_save], step by step. *)
Lemma scrape_and_save_run (env : Env) (n : nat) :
  scrape_and_save env n =
  let r1 := fetch_page env SEARCH_URL n in
  let start := EvLog INFO Start_scraping in
  match result r1 with
  | Raises e => Run (Raises e) (start :: events r1) (clock r1)
  | Returns None =>
      Run (Returns tt)
        (start :: events r1 ++ [EvLog ERROR Failed_to_get_search_results])
        (clock r1)
  | Returns (Some html) =>
    let r2 := parse_search_results env html (clock r1) in
    match result r2 with
    | Raises e => Run (Raises e) (start :: events r1 ++ events r2) (clock r2)
    | Returns [] =>
        Run (Returns tt)
          (start :: events r1 ++ events r2 ++ [EvLog WARNING No_properties_found])
          (clock r2)
    | Returns (p :: ps) =>
      let r3 := fetch_details env (p :: ps) [] (clock r2) in
      match result r3 with
      | Raises e =>
          Run (Raises e) (start :: events r1 ++ events r2 ++ events r3) (clock r3)
      | Returns all_data =>
        match filter_mokuzou all_data with
        | Raises e =>
            Run (Raises e) (start :: events r1 ++ events r2 ++ events r3)
              (clock r3)
        | Returns filtered_data =>
          let r4 := save_to_excel env filtered_data OUTPUT_EXCEL_FILE (clock r3) in
          match result r4 with
          | Raises e =>
              Run (Raises e)
                (start :: events r1 ++ events r2 ++ events r3 ++ events r4)
                (clock r4)
          | Returns _ =>
              Run (Returns tt)
                (start :: events r1 ++ events r2 ++ events r3 ++ events r4
                 ++ [EvLog INFO Scraping_done]) (clock r4)
          end
        end
      end
    end
  end.
Proof.
  unfold scrape_and_save, bind, log, lift. cbn [result events clock app].
  destruct (result (fetch_page env SEARCH_URL n)) as [[html|]|e]; [| done..].
  destruct (result (parse_search_results env html _)) as [[|p ps]|e];
    cbn [result events clock app]; [done| |done].
  destruct (result (fetch_details env (p :: ps) [] _)) as [all_data|e];
    cbn [result events clock app]; [|done].
  destruct (filter_mokuzou all_data) as [filtered|e];
    cbn [result events clock app]; [|by rewrite app_nil_r].
  destruct (result (save_to_excel env filtered OUTPUT_EXCEL_FILE _));
    cbn [result events clock app]; by rewrite ?app_nil_r, ?app_nil_l.
Qed.

Lemma fetch_page_events (env : Env) (url : pystr) (n : nat) :
  Forall (fetch_event url) (events (fetch_page env url n)).
Proof.
  assert (Hget : fetch_event url (EvGet url)) by (split; [done|by intros ? [= <-]]).
  assert (Hlog : ∀ e, fetch_event url (EvLog ERROR (Error_fetching url e)))
    by (split; [done|by intros ? [=]]).
  assert (Hinfo : fetch_event url (EvLog INFO (Retrying_after RETRY_INTERVAL)))
    by (split; [done|by intros ? [=]]).
  assert (Hsleep : fetch_event url (EvSleep RETRY_INTERVAL))
    by (split; [done|by intros ? [=]]).
  rewrite fetch_page_run. unfold failed_attempt.
  destruct (attempt_result (requests_get env url n)) as [b0|e0]; simpl;
    [by repeat (apply Forall_cons_2 || apply Forall_nil_2)|].
  destruct (is_RequestException e0); simpl;
    [|by repeat (apply Forall_cons_2 || apply Forall_nil_2)].
  destruct (attempt_result (requests_get env url (S n))) as [b1|e1]; simpl;
    [by repeat (apply Forall_cons_2 || apply Forall_nil_2)|].
  destruct (is_RequestException e1); simpl;
    [|by repeat (apply Forall_cons_2 || apply Forall_nil_2)].
  destruct (attempt_result (requests_get env url (S (S n)))) as [b2|e2]; simpl;
    [by repeat (apply Forall_cons_2 || apply Forall_nil_2)|].
  destruct (is_RequestException e2); simpl;
    by repeat (apply Forall_cons_2 || apply Forall_nil_2).
Qed.

Lemma warnings_quiet (units : list PageElement) :
  Forall quiet_event (warnings units).
Proof.
  induction units as [|u rest IH]; simpl; [constructor|].
  destruct (property_of_unit u); [done|].
  constructor; [|done]. split; [done|by intros ?].
Qed.

Lemma quiet_fetch_event (url : pystr) (e : event) :
  quiet_event e → fetch_event url e.
Proof. intros [H1 H2]. split; [done|]. intros u ->. by destruct (H2 u). Qed.

(** C5. When the fetch of the index page exhausts its attempts, and when
    the index page yields no record, [scrape_and_save] returns normally
    after logging an error, respectively a warning: none of its events is
    an event of the sink (no call, no file), its only requests are those of
    the one fetch of the index page, and that fetch is not repeated. *)
Theorem C5_abort_before_sink (env : Env) (n : nat) :
  let r := scrape_and_save env n in
  let index := fetch_page env SEARCH_URL n in
  (∀ last_error,
     exhausted env SEARCH_URL n last_error →
     result r = Returns tt ∧ clock r = n + MAX_RETRY
     ∧ events r
       = EvLog INFO Start_scraping :: events index
         ++ [EvLog ERROR Failed_to_get_search_results]
     ∧ Forall (fetch_event SEARCH_URL) (events r))
  ∧ (∀ html,
       result index = Returns (Some html) →
       result (parse_search_results env html (clock index)) = Returns [] →
       result r = Returns tt ∧ clock r = clock index
       ∧ events r
         = EvLog INFO Start_scraping :: events index
           ++ warnings (listing_units env html)
           ++ [EvLog WARNING No_properties_found]
       ∧ Forall (fetch_event SEARCH_URL) (events r)).
Proof.
  intros r index. subst r index.
  assert (Hstart : fetch_event SEARCH_URL (EvLog INFO Start_scraping))
    by (split; [done|by intros ? [=]]).
  pose proof (fetch_page_events env SEARCH_URL n) as Hindex. split.
  - intros last_error Hex. rewrite scrape_and_save_run. cbn zeta.
    destruct (fetch_page_exhausted _ _ _ _ Hex) as (e0 & e1 & Hrun).
    rewrite Hrun in *. cbn [result events clock].
    split_and!; [done..|].
    apply Forall_cons_2; [done|]. apply Forall_app_2; [done|].
    apply Forall_cons_2; [|done]. split; [done|by intros ? [=]].
  - intros html Hhtml Hparse. rewrite scrape_and_save_run. cbn zeta.
    rewrite Hhtml.
    destruct (parse_search_results_returns _ _ _ _ Hparse) as [_ Hrun].
    rewrite Hrun in Hparse. cbn [result] in Hparse. injection Hparse as Hnil.
    rewrite Hrun. cbn [result events clock]. rewrite Hnil.
    split_and!; [done..|].
    apply Forall_cons_2; [done|]. apply Forall_app_2; [done|].
    apply Forall_app_2.
    + eapply Forall_impl; [apply warnings_quiet|]. apply quiet_fetch_event.
    + apply Forall_cons_2; [|done]. split; [done|by intros ? [=]].
Qed.

Lemma C5_abort_before_sink_witness :
  (let r := scrape_and_save (env_down Timeout) 0 in
   result r = Returns tt ∧ clock r = 0 + MAX_RETRY
   ∧ events r
     = EvLog INFO Start_scraping
       :: events (fetch_page (env_down Timeout) SEARCH_URL 0)
       ++ [EvLog ERROR Failed_to_get_search_results]
   ∧ Forall (fetch_event SEARCH_URL) (events r))
  ∧ (let env := env_of_site (site_of_units [unit_no_title]) in
     let r := scrape_and_save env 0 in
     result r = Returns tt ∧ clock r = clock (fetch_page env SEARCH_URL 0)
     ∧ events r
       = EvLog INFO Start_scraping :: events (fetch_page env SEARCH_URL 0)
         ++ warnings (listing_units env SEARCH_URL)
         ++ [EvLog WARNING No_properties_found]
     ∧ Forall (fetch_event SEARCH_URL) (events r)).
Proof.
  split.
  - apply (proj1 (C5_abort_before_sink (env_down Timeout) 0)
             (RequestException Timeout)).
    split; [intros j _; exists (RequestException Timeout)|]; split; reflexivity.
  - apply (proj2 (C5_abort_before_sink
                    (env_of_site (site_of_units [unit_no_title])) 0)
             SEARCH_URL).
    + reflexivity.
    + vm_compute. reflexivity.
Defined.

Lemma details_events_quiet (env : Env) (html : pystr) :
  Forall quiet_event (details_events env html).
Proof.
  unfold details_events. destruct (BeautifulSoup env html) as [|soup]; [done|].
  destruct (select_fails env soup); [|done].
  apply Forall_cons_2; [|done]. split; [done|by intros ?].
Qed.

Lemma fetch_details_events (env : Env) (ps acc : list property_info) (n : nat) :
  Forall (λ e, is_sink_event e = false) (events (fetch_details env ps acc n)).
Proof.
  revert acc n. induction ps as [|p rest IH]; intros acc n; [constructor|].
  rewrite fetch_details_cons. cbn zeta.
  pose proof (fetch_page_events env (p_url p) n) as Hp.
  apply (Forall_impl _ (λ e, is_sink_event e = false)) in Hp; [|by intros ? []].
  destruct (result (fetch_page env (p_url p) n)) as [[html|]|e];
    cbn [events]; [| |done].
  - pose proof (details_events_quiet env html) as Hd.
    destruct (BeautifulSoup env html); cbn [events]; [done|].
    apply Forall_app_2; [done|]. apply Forall_app_2; [|apply IH].
    eapply Forall_impl; [exact Hd|]. by intros ? [].
  - apply Forall_app_2; [done|]. apply Forall_cons_2; [done|apply IH].
Qed.

Lemma fetch_details_seq (env : Env) (ps : list property_info)
    (outs : list (option pystr)) (acc : list property_info) (n n' : nat) :
  fetch_seq env n ps outs n' →
  result (fetch_details env ps acc n) = Returns (acc ++ merged env ps outs)
  ∧ clock (fetch_details env ps acc n) = n'.
Proof.
  intros H. revert acc.
  induction H as [n|n p ps o outs n' Ho Hsoup _ IH]; intros acc.
  - simpl. by rewrite app_nil_r.
  - rewrite fetch_details_cons. cbn zeta. rewrite Ho.
    destruct o as [html|]; cbn [result clock merged].
    + destruct (Hsoup html eq_refl) as [soup ->]. cbn [result clock].
      destruct (IH (acc ++ [update p (details_of env html)])) as [-> ->].
      by rewrite <- app_assoc.
    + by destruct (IH acc) as [-> ->].
Qed.

Lemma merged_has_details (env : Env) (ps : list property_info)
    (outs : list (option pystr)) :
  Forall has_details (merged env ps outs).
Proof.
  revert outs. induction ps as [|p ps IH]; intros [|[html|] outs]; simpl;
    try constructor; try apply IH.
  split; eexists; reflexivity.
Qed.

Lemma has_details_filter (f : property_info → bool) (l : list property_info) :
  Forall has_details l → Forall has_details (List.filter f l).
Proof.
  induction 1 as [|p l Hp _ IH]; simpl; [constructor|].
  destruct (f p); [by constructor|done].
Qed.

(** C6, as the specification states it, fails: a record whose detail
    fetch succeeded and whose structure contains "木造" is merged but does
    not reach the sink. *)
Lemma C6_succeeded_mokuzou_record_is_not_delivered :
  ¬ succeeded_records_reach_sink.
Proof.
  intros H.
  destruct (H (env_of_site (site_first_detail_down "木造")) 0 SEARCH_URL
              (extracted (site_units (site_first_detail_down "木造")))
              [None; Some (BASE_URL ++ py "/b")] 5)
    as [before Hev].
  - reflexivity.
  - vm_compute. reflexivity.
  - vm_compute. discriminate.
  - vm_compute. apply fetch_seq_cons; [vm_compute; reflexivity|done|].
    vm_compute.
    apply fetch_seq_cons;
      [vm_compute; reflexivity|intros ? [= <-]; by eexists|].
    vm_compute. apply fetch_seq_nil.
  - apply (f_equal reverse) in Hev. rewrite !reverse_app in Hev.
    vm_compute in Hev. discriminate Hev.
Qed.

Lemma save_to_excel_clock (env : Env) (data : list property_info)
    (filename : pystr) (n : nat) :
  clock (save_to_excel env data filename n) = n.
Proof.
  destruct data as [|p rest]; [done|].
  unfold save_to_excel, bind, lift. cbn [result events clock].
  destruct (sheet <~ sheet_append [] HEADER;; append_rows (p :: rest) sheet)
    as [sheet|e]; [|done].
  unfold try_except, save_workbook, bind, log. cbn [result events clock].
  by destruct (workbook_save env filename sheet).
Qed.

(** The run up to the call of the sink: when the index page yields
    records and every detail fetch returns, [save_to_excel] is called with
    the merged records that pass the filter, and the run goes on as that
    call does. *)
Lemma scrape_and_save_reaches_sink
    (env : Env) (n : nat) (html : pystr) (ps : list property_info)
    (outs : list (option pystr)) (n' : nat) :
  let index := fetch_page env SEARCH_URL n in
  result index = Returns (Some html) →
  result (parse_search_results env html (clock index)) = Returns ps →
  ps ≠ [] →
  fetch_seq env (clock index) ps outs n' →
  let delivered := List.filter (λ p, negb (is_mokuzou p)) (merged env ps outs) in
  let sink := save_to_excel env delivered OUTPUT_EXCEL_FILE n' in
  ∃ before,
    Forall (λ e, is_sink_event e = false) before
    ∧ scrape_and_save env n
      = match result sink with
        | Returns _ =>
            Run (Returns tt)
              (before ++ events sink ++ [EvLog INFO Scraping_done]) n'
        | Raises e => Run (Raises e) (before ++ events sink) n'
        end
    ∧ Forall has_details delivered.
Proof.
  intros index Hindex Hparse Hne Hseq delivered sink. subst index delivered sink.
  rewrite scrape_and_save_run. cbn zeta. rewrite Hindex.
  destruct (parse_search_results_returns _ _ _ _ Hparse) as [_ Hrun].
  rewrite Hrun in Hparse. cbn [result] in Hparse. injection Hparse as Hps.
  rewrite Hrun. cbn [result events clock]. rewrite Hps.
  destruct ps as [|p ps]; [done|].
  destruct (fetch_details_seq env _ _ [] _ _ Hseq) as [Hres Hclock].
  rewrite Hres, Hclock. cbn [app].
  pose proof (merged_has_details env (p :: ps) outs) as Hdet.
  rewrite filter_mokuzou_filter
    by (eapply Forall_impl; [exact Hdet|by intros ? []]).
  rewrite save_to_excel_clock.
  exists (EvLog INFO Start_scraping
          :: events (fetch_page env SEARCH_URL n)
          ++ warnings (listing_units env html)
          ++ events (fetch_details env (p :: ps) []
                       (clock (fetch_page env SEARCH_URL n)))).
  split_and!.
  - apply Forall_cons_2; [done|]. apply Forall_app_2.
    + eapply Forall_impl; [apply fetch_page_events|]. by intros ? [].
    + apply Forall_app_2; [|apply fetch_details_events].
      eapply Forall_impl; [apply warnings_quiet|]. by intros ? [].
  - destruct (result (save_to_excel env _ OUTPUT_EXCEL_FILE n'));
      f_equal; cbn [app]; f_equal; by rewrite <- !app_assoc.
  - by apply has_details_filter.
Qed.

(** C6, amended. When the index page yields records and every detail
    fetch returns (nothing after all retries failed, or a body, for which
    the parser returns a tree), exactly the records whose detail fetch
    returned a body are merged, in the order of the index page, and
    [save_to_excel] is called with those of them whose structure does not
    contain "木造", in that order: the run goes on as that call does, and
    nothing before it is an event of the sink. When the sheet takes the rows
    of these records, the call saves exactly their rows and returns. *)
Theorem C6_detail_failure_isolation
    (env : Env) (n : nat) (html : pystr) (ps : list property_info)
    (outs : list (option pystr)) (n' : nat) :
  let index := fetch_page env SEARCH_URL n in
  result index = Returns (Some html) →
  result (parse_search_results env html (clock index)) = Returns ps →
  ps ≠ [] →
  fetch_seq env (clock index) ps outs n' →
  let delivered := List.filter (λ p, negb (is_mokuzou p)) (merged env ps outs) in
  let sink := save_to_excel env delivered OUTPUT_EXCEL_FILE n' in
  ∃ before,
    Forall (λ e, is_sink_event e = false) before
    ∧ scrape_and_save env n
      = match result sink with
        | Returns _ =>
            Run (Returns tt)
              (before ++ events sink ++ [EvLog INFO Scraping_done]) n'
        | Raises e => Run (Raises e) (before ++ events sink) n'
        end
    ∧ (forallb writable delivered = true →
       sink = Run (Returns tt) (sink_events env OUTPUT_EXCEL_FILE delivered) n').
Proof.
  intros index Hindex Hparse Hne Hseq delivered sink.
  destruct (scrape_and_save_reaches_sink env n html ps outs n'
              Hindex Hparse Hne Hseq) as (before & Hbefore & Hrun & Hdet).
  exists before. split_and!; [done..|].
  intros Hw. by apply save_to_excel_run.
Qed.

Lemma C6_detail_failure_isolation_witness :
  let env := env_of_site (site_first_detail_down "RC造") in
  let ps := extracted (site_units (site_first_detail_down "RC造")) in
  let outs := [None; Some (BASE_URL ++ py "/b")] in
  let delivered := List.filter (λ p, negb (is_mokuzou p)) (merged env ps outs) in
  ∃ before,
    Forall (λ e, is_sink_event e = false) before
    ∧ scrape_and_save env 0
      = Run (Returns tt)
          (before ++ sink_events env OUTPUT_EXCEL_FILE delivered
           ++ [EvLog INFO Scraping_done]) 5.
Proof.
  intros env ps outs delivered.
  destruct (C6_detail_failure_isolation env 0 SEARCH_URL ps outs 5)
    as (before & Hbefore & Hrun & Hsink).
  - reflexivity.
  - vm_compute. reflexivity.
  - vm_compute. discriminate.
  - vm_compute. apply fetch_seq_cons; [vm_compute; reflexivity|done|].
    vm_compute.
    apply fetch_seq_cons;
      [vm_compute; reflexivity|intros ? [= <-]; by eexists|].
    vm_compute. apply fetch_seq_nil.
  - exists before. split; [exact Hbefore|].
    rewrite Hrun, (Hsink eq_refl). reflexivity.
Defined.

Lemma parse_units_events (units : list PageElement)
    (data : list property_info) (n : nat) :
  Forall quiet_event (events (parse_units units data n)).
Proof.
  revert data. induction units as [|u rest IH]; intros data; [constructor|].
  simpl. unfold bind, try_except, lift. simpl.
  destruct (property_of_unit u) as [p|e]; simpl.
  - destruct (result (parse_units rest (data ++ [p]) n)); simpl; apply IH.
  - destruct (is_AttributeError e); simpl; [|constructor].
    assert (quiet_event (EvLog WARNING (Failed_to_extract_property e)))
      by (split; [done|by intros ?]).
    destruct (result (parse_units rest data n)); simpl;
      (apply Forall_cons_2; [done|apply IH]).
Qed.

(** Whatever the loop of lines 153-162 returns is made of records of
    [ps] updated with details. *)
Lemma parse_search_results_events (env : Env) (html : pystr) (n : nat) :
  Forall quiet_event (events (parse_search_results env html n)).
Proof.
  destruct (BeautifulSoup env html) as [e|soup] eqn:E.
  - by rewrite (parse_search_results_rejected _ _ _ _ E).
  - destruct (parse_search_results_parsed _ _ n _ E) as [-> _].
    apply parse_units_events.
Qed.

Lemma fetch_details_returns (env : Env) (ps acc out : list property_info)
    (n : nat) :
  result (fetch_details env ps acc n) = Returns out →
  ∃ new, out = acc ++ new
         ∧ Forall (λ p, ∃ p0 d, p0 ∈ ps ∧ p = update p0 d) new.
Proof.
  revert acc n. induction ps as [|p rest IH]; intros acc n.
  - simpl. intros [= <-]. exists []. by rewrite app_nil_r.
  - rewrite fetch_details_cons. cbn zeta.
    destruct (result (fetch_page env (p_url p) n)) as [[html|]|e];
      [destruct (BeautifulSoup env html) as [e|soup]| |];
      cbn [result]; [done| | |done]; intros H;
      apply IH in H as (new & -> & Hnew).
    + exists (update p (details_of env html) :: new).
      split; [by rewrite <- app_assoc|].
      apply Forall_cons_2.
      * exists p, (details_of env html). split; [left|done].
      * eapply Forall_impl; [exact Hnew|].
        intros q (p0 & d & ? & ->). exists p0, d. split; [by right|done].
    + exists new. split; [done|].
      eapply Forall_impl; [exact Hnew|].
      intros q (p0 & d & ? & ->). exists p0, d. split; [by right|done].
Qed.

Lemma not_sink_not_save (l : list event) (filename : pystr)
    (sheet : list (list pystr)) :
  Forall (λ e, is_sink_event e = false) l → EvSave filename sheet ∉ l.
Proof.
  intros H Hin. rewrite Forall_forall in H. by apply H in Hin.
Qed.

Lemma read_from_unit (u : PageElement) (p0 : property_info) (d : details) :
  property_of_unit u = Returns p0 →
  read_from u (update p0 d) ∧ p_url (update p0 d) ≠ JOUHOU_NASHI.
Proof.
  intros H. apply property_of_unit_returns in H
    as (title & price & madori & body & second & link
        & ? & ? & ? & ? & ? & ? & href & ? & ->).
  split; [|done].
  exists title, price, madori, link, href. by split_and!.
Qed.

Ltac split_elem H :=
  repeat lazymatch type of H with
    | _ ∈ _ :: _ => apply elem_of_cons in H as [H|H]
    | _ ∈ _ ++ _ => apply elem_of_app in H as [H|H]
    | _ ∈ [] => by apply elem_of_nil in H
    end.

(** Every workbook that [scrape_and_save] saves is the header followed by
    the rows of records that have their detail fields and whose other
    fields were read from a listing unit of the index page. *)
Lemma saved_sheet_is_extracted (env : Env) (n : nat) (filename : pystr)
    (sheet : list (list pystr)) :
  EvSave filename sheet ∈ events (scrape_and_save env n) →
  ∃ html data,
    result (fetch_page env SEARCH_URL n) = Returns (Some html)
    ∧ filename = OUTPUT_EXCEL_FILE
    ∧ sheet = HEADER :: map (λ p, stored (cells p)) data
    ∧ Forall (λ p, has_details p ∧ p_url p ≠ JOUHOU_NASHI
                   ∧ ∃ u, u ∈ listing_units env html ∧ read_from u p) data.
Proof.
  intros H. rewrite scrape_and_save_run in H. cbn zeta in H.
  pose proof (not_sink_not_save _ filename sheet
                (Forall_impl _ _ _ (fetch_page_events env SEARCH_URL n)
                   (λ e H, proj1 H))) as E1.
  destruct (result (fetch_page env SEARCH_URL n)) as [[html|]|e] eqn:H1;
    cbn [events] in H; try (split_elem H; done).
  assert (E2 : EvSave filename sheet
               ∉ events (parse_search_results env html
                           (clock (fetch_page env SEARCH_URL n)))).
  { apply not_sink_not_save.
    eapply Forall_impl; [apply parse_search_results_events|]. by intros ? []. }
  destruct (result (parse_search_results env html _)) as [[|p ps]|e] eqn:H2;
    cbn [events] in H; try (split_elem H; done).
  destruct (parse_search_results_returns _ _ _ _ H2) as [_ Hrun].
  rewrite Hrun in H2, H. cbn [result events clock] in H2, H.
  injection H2 as Hps.
  assert (E2' : EvSave filename sheet ∉ warnings (listing_units env html)).
  { apply not_sink_not_save. eapply Forall_impl; [apply warnings_quiet|].
    by intros ? []. }
  pose proof (not_sink_not_save _ filename sheet
                (fetch_details_events env (p :: ps) []
                   (clock (fetch_page env SEARCH_URL n)))) as E3.
  destruct (result (fetch_details env (p :: ps) [] _)) as [all_data|e] eqn:H3;
    cbn [events] in H; try (split_elem H; done).
  apply fetch_details_returns in H3 as (new & -> & Hnew). cbn [app] in H.
  assert (Hdet : Forall has_details new).
  { eapply Forall_impl; [exact Hnew|]. intros q (p0 & d & _ & ->).
    split; eexists; reflexivity. }
  rewrite filter_mokuzou_filter in H
    by (eapply Forall_impl; [exact Hdet|by intros ? []]).
  rewrite save_to_excel_cases in H by by apply has_details_filter.
  set (data := List.filter (λ p, negb (is_mokuzou p)) new) in *.
  destruct (forallb writable data); cbn [result events] in H;
    [|rewrite app_nil_r in H; split_elem H; done].
  assert (Hdata : Forall (λ q, q ∈ new) data).
  { apply Forall_forall. intros q Hq. apply list_elem_of_In in Hq.
    apply filter_In in Hq as [Hq _]. by apply list_elem_of_In. }
  exists html, data. split; [done|].
  assert (Hsave : filename = OUTPUT_EXCEL_FILE
                  ∧ sheet = HEADER :: map (λ p, stored (cells p)) data).
  { clearbody data. destruct data as [|q data]; cbn [sink_events] in H;
      split_elem H; try done.
    - by injection H as -> ->.
    - by destruct (workbook_save env _ _). }
  destruct Hsave as [-> ->]. split; [done|]. split; [done|].
  eapply Forall_impl; [exact Hdata|]. intros q Hq. cbn beta in Hq.
  rewrite Forall_forall in Hnew, Hdet.
  destruct (Hnew _ Hq) as (p0 & d & Hp0 & ->).
  rewrite <- Hps in Hp0. apply extracted_elem in Hp0 as (u & Hu & Hread).
  destruct (read_from_unit u p0 d Hread) as [Hr Hurl].
  split; [by apply Hdet|]. split; [done|]. by exists u.
Qed.

Lemma first_save_elem (evs : list event) (filename : pystr)
    (sheet : list (list pystr)) :
  first_save evs = Some (filename, sheet) → EvSave filename sheet ∈ evs.
Proof.
  induction evs as [|e evs IH]; [done|].
  destruct e; simpl; try (intros H; right; by apply IH).
  intros [= -> ->]. left.
Qed.

(** C4, as the specification states it, fails: the name of a saved row is
    the text of the page, which can be the very string that serves as the
    sentinel. *)
Lemma C4_page_text_can_be_the_sentinel : ¬ sink_rows_have_no_sentinel.
Proof.
  intros H.
  destruct (H (env_of_site (site_of_units [unit_ok "情報なし" "/a"])) 0
              OUTPUT_EXCEL_FILE
              [HEADER;
               [JOUHOU_NASHI; py "8万円"; JOUHOU_NASHI; JOUHOU_NASHI;
                py "1LDK"; py "A駅 歩5分, B駅 歩9分"; py "https://suumo.jp/a"]]
              JOUHOU_NASHI (py "8万円") JOUHOU_NASHI JOUHOU_NASHI
              (py "1LDK") (py "A駅 歩5分, B駅 歩9分") (py "https://suumo.jp/a"))
    as [Hname _].
  - apply first_save_elem. vm_compute. reflexivity.
  - cbn [tail]. left.
  - by apply Hname.
Qed.

(** C4, amended. Every row that is saved comes from a record that has its
    detail fields and whose name, price and layout are the trimmed texts of
    the elements found in a listing unit of the index page and whose URL is
    the base URL followed by the [href] of the unit's link, hence not the
    sentinel: the program puts the sentinel in none of these four fields
    and a unit lacking one of them yields no row. A row may carry the
    sentinel as its deposit and structure. *)
Theorem C4_saved_rows_are_extracted :
  (∀ env n filename sheet,
     EvSave filename sheet ∈ events (scrape_and_save env n) →
     ∃ html data,
       result (fetch_page env SEARCH_URL n) = Returns (Some html)
       ∧ filename = OUTPUT_EXCEL_FILE
       ∧ sheet = HEADER :: map (λ p, stored (cells p)) data
       ∧ Forall (λ p, has_details p ∧ p_url p ≠ JOUHOU_NASHI
                      ∧ ∃ u, u ∈ listing_units env html ∧ read_from u p) data)
  ∧ (∃ env name price madori stations url,
       EvSave OUTPUT_EXCEL_FILE
         [HEADER;
          [name; price; JOUHOU_NASHI; JOUHOU_NASHI; madori; stations; url]]
       ∈ events (scrape_and_save env 0)).
Proof.
  split; [exact saved_sheet_is_extracted|].
  exists (env_of_site (site_of_units [unit_ok "A" "/a"])),
    (py "A"), (py "8万円"), (py "1LDK"), (py "A駅 歩5分, B駅 歩9分"),
    (py "https://suumo.jp/a").
  apply first_save_elem. vm_compute. reflexivity.
Qed.

Lemma C4_saved_rows_are_extracted_witness :
  let env := env_of_site (site_first_detail_down "RC造") in
  ∃ html data,
    result (fetch_page env SEARCH_URL 0) = Returns (Some html)
    ∧ OUTPUT_EXCEL_FILE = OUTPUT_EXCEL_FILE
    ∧ HEADER :: map (λ p, stored (cells p))
                  (List.filter (λ p, negb (is_mokuzou p))
                     (merged env (extracted (site_units (site_first_detail_down "RC造")))
                        [None; Some (BASE_URL ++ py "/b")]))
      = HEADER :: map (λ p, stored (cells p)) data
    ∧ Forall (λ p, has_details p ∧ p_url p ≠ JOUHOU_NASHI
                   ∧ ∃ u, u ∈ listing_units env html ∧ read_from u p) data.
Proof.
  apply (proj1 C4_saved_rows_are_extracted
           (env_of_site (site_first_detail_down "RC造")) 0).
  apply first_save_elem. vm_compute. reflexivity.
Defined.

(** ** Reproducible runs *)

Section Reproducible.

Variables (env1 env2 : Env) (n1 n2 : nat).
Hypothesis Hworld : same_world env1 env2 n1 n2.

Lemma related_pure {A} (r : outcome A) (evs : list event) :
  related n1 n2 (λ n, Run r evs n) (λ n, Run r evs n).
Proof. intros d. split_and!; [done..|]. exists 0. simpl. lia. Qed.

Lemma related_bind {A B} (m1 m2 : M A) (f1 f2 : A → M B) :
  related n1 n2 m1 m2 → (∀ a, related n1 n2 (f1 a) (f2 a)) →
  related n1 n2 (bind m1 f1) (bind m2 f2).
Proof.
  intros Hm Hf d. destruct (Hm d) as (Hr & He & d' & Hc1 & Hc2).
  unfold same_run, bind. rewrite <- Hr, <- He, Hc1, Hc2.
  destruct (result (m1 (n1 + d))) as [a|e]; cbn [result events clock].
  - destruct (Hf a (d + d')) as (Hr' & He' & d'' & Hc1' & Hc2').
    rewrite !Nat.add_assoc in *. rewrite Hr', He', Hc1', Hc2'.
    split_and!; [done..|]. exists (d' + d''). lia.
  - split_and!; [done..|]. by exists d'.
Qed.

Lemma related_try_except {A} (m1 m2 : M A) (catches : exn → bool)
    (h1 h2 : exn → M A) :
  related n1 n2 m1 m2 → (∀ e, related n1 n2 (h1 e) (h2 e)) →
  related n1 n2 (try_except m1 catches h1) (try_except m2 catches h2).
Proof.
  intros Hm Hh d. destruct (Hm d) as (Hr & He & d' & Hc1 & Hc2).
  unfold same_run, try_except. rewrite <- Hr.
  destruct (result (m1 (n1 + d))) as [a|e] eqn:E.
  - rewrite E, <- Hr, He, Hc1, Hc2. split_and!; [done..|]. by exists d'.
  - destruct (catches e); cbn [result events clock].
    + destruct (Hh e (d + d')) as (Hr' & He' & d'' & Hc1' & Hc2').
      rewrite Hc1, Hc2, <- He. rewrite !Nat.add_assoc in *.
      rewrite Hr', He', Hc1', Hc2'.
      split_and!; [done..|]. exists (d' + d''). lia.
    + rewrite E, <- Hr, He, Hc1, Hc2. split_and!; [done..|]. by exists d'.
Qed.

Lemma related_http_get (url : pystr) :
  related n1 n2 (http_get env1 url) (http_get env2 url).
Proof.
  intros d. unfold same_run, http_get. cbn [result events clock].
  destruct Hworld as (Hnet & _). rewrite Hnet.
  split_and!; [done..|]. exists 1. lia.
Qed.

Lemma related_fetch_page (url : pystr) :
  related n1 n2 (fetch_page env1 url) (fetch_page env2 url).
Proof.
  unfold fetch_page. generalize (seq 0 MAX_RETRY) as range.
  induction range as [|i range IH]; [apply related_pure|].
  cbn [fetch_loop]. apply related_bind.
  - apply related_try_except.
    + apply related_bind; [apply related_http_get|]. intros response.
      apply related_bind; [apply related_pure|]. intros _. apply related_pure.
    + intros e. apply related_bind; [apply related_pure|]. intros _.
      apply related_bind; [|intros _; apply related_pure].
      destruct (i <? MAX_RETRY - 1); [|apply related_pure].
      apply related_bind; [apply related_pure|]. intros _. apply related_pure.
  - intros [body|]; [apply related_pure|apply IH].
Qed.

Lemma related_parse_units (units : list PageElement) (data : list property_info) :
  related n1 n2 (parse_units units data) (parse_units units data).
Proof.
  revert data. induction units as [|u rest IH]; intros data;
    [apply related_pure|].
  cbn [parse_units]. apply related_bind; [|intros data'; apply IH].
  apply related_try_except.
  - apply related_bind; [apply related_pure|]. intros p. apply related_pure.
  - intros e. apply related_bind; [apply related_pure|]. intros _.
    apply related_pure.
Qed.

Lemma related_parse_search_results (html : pystr) :
  related n1 n2 (parse_search_results env1 html) (parse_search_results env2 html).
Proof.
  unfold parse_search_results, soup_of. destruct Hworld as (_ & Hsoup & _).
  rewrite Hsoup. apply related_bind; [apply related_pure|].
  intros soup. apply related_parse_units.
Qed.

Lemma related_parse_property_details (html : pystr) :
  related n1 n2 (parse_property_details env1 html) (parse_property_details env2 html).
Proof.
  unfold parse_property_details, soup_of, try_rows, select.
  destruct Hworld as (_ & Hsoup & Hselect & _).
  rewrite Hsoup. apply related_bind; [apply related_pure|].
  intros soup. rewrite Hselect.
  destruct (select_fails env2 soup) as [e|].
  - apply related_bind; [apply related_pure|]. intros _. apply related_pure.
  - destruct (scan_rows _ _) as [[e|] d]; [|apply related_pure].
    apply related_bind; [apply related_pure|]. intros _. apply related_pure.
Qed.

Lemma related_fetch_details (ps acc : list property_info) :
  related n1 n2 (fetch_details env1 ps acc) (fetch_details env2 ps acc).
Proof.
  revert acc. induction ps as [|p rest IH]; intros acc; [apply related_pure|].
  cbn [fetch_details]. apply related_bind; [apply related_fetch_page|].
  intros [html|].
  - apply related_bind; [apply related_parse_property_details|].
    intros d. apply IH.
  - apply related_bind; [apply related_pure|]. intros _. apply IH.
Qed.

Lemma related_save_to_excel (data : list property_info) (filename : pystr) :
  related n1 n2 (save_to_excel env1 data filename) (save_to_excel env2 data filename).
Proof.
  destruct data as [|p data]; [apply related_pure|].
  cbn [save_to_excel]. apply related_bind; [apply related_pure|].
  intros sheet. apply related_try_except; [|intros e; apply related_pure].
  apply related_bind; [|intros _; apply related_pure].
  unfold save_workbook. destruct Hworld as (_ & _ & _ & Hsave). rewrite Hsave.
  apply related_pure.
Qed.

Lemma related_scrape_and_save :
  related n1 n2 (scrape_and_save env1) (scrape_and_save env2).
Proof.
  unfold scrape_and_save. apply related_bind; [apply related_pure|].
  intros _. apply related_bind; [apply related_fetch_page|].
  intros [html|]; [|apply related_pure].
  apply related_bind; [apply related_parse_search_results|].
  intros [|p ps]; [apply related_pure|].
  apply related_bind; [apply related_fetch_details|]. intros all_data.
  apply related_bind; [apply related_pure|]. intros filtered_data.
  apply related_bind; [apply related_save_to_excel|]. intros _.
  apply related_pure.
Qed.

End Reproducible.

(** C9. Two runs of the pipeline for which the network gives the same
    answers (each counted from the start of its run), the parser yields the
    same documents, the selector engine and the disk behave the same, have
    the same result and the same events, hence save the same rows, and
    issue the same number of requests: nothing of what came before a run
    enters it. *)
Theorem C9_runs_are_reproducible (env1 env2 : Env) (n1 n2 : nat) :
  same_world env1 env2 n1 n2 →
  let r1 := scrape_and_save env1 n1 in
  let r2 := scrape_and_save env2 n2 in
  result r1 = result r2 ∧ events r1 = events r2
  ∧ clock r1 - n1 = clock r2 - n2.
Proof.
  intros H.
  destruct (related_scrape_and_save env1 env2 n1 n2 H 0)
    as (Hr & He & d & Hc1 & Hc2).
  rewrite !Nat.add_0_r in *. cbn zeta. split_and!; [done..|]. lia.
Qed.

Lemma C9_runs_are_reproducible_witness :
  let env := env_of_site (site_first_detail_down "RC造") in
  let r1 := scrape_and_save env 0 in
  let r2 := scrape_and_save env (clock r1) in
  result r1 = result r2 ∧ events r1 = events r2
  ∧ clock r1 - 0 = clock r2 - clock r1.
Proof.
  apply (C9_runs_are_reproducible
           (env_of_site (site_first_detail_down "RC造"))
           (env_of_site (site_first_detail_down "RC造")) 0).
  split_and!; intros; reflexivity.
Defined.

(** * Further properties of the code *)

(** ** [fetch_page], beyond the retry bound *)

Lemma fetch_page_clock (env : Env) (url : pystr) (n : nat) :
  n + 1 ≤ clock (fetch_page env url n) ≤ n + MAX_RETRY.
Proof.
  rewrite fetch_page_run. unfold MAX_RETRY.
  destruct (attempt_result (requests_get env url n)) as [b0|e0]; simpl; [lia|].
  destruct (is_RequestException e0); simpl; [|lia].
  destruct (attempt_result (requests_get env url (S n))) as [b1|e1]; simpl;
    [lia|].
  destruct (is_RequestException e1); simpl; [|lia].
  destruct (attempt_result (requests_get env url (S (S n)))) as [b2|e2]; simpl;
    [lia|].
  destruct (is_RequestException e2); simpl; lia.
Qed.

(** X1. An exception that is not a [RequestException] leaves [fetch_page]
    at the attempt that raised it: it is the result of the call, the
    request is the last event, so there is no log entry for it, no wait and
    no further attempt. *)
Theorem X1_fetch_page_other_exception_propagates
    (env : Env) (url : pystr) (n k : nat) (e : exn) :
  k < MAX_RETRY →
  (∀ j, j < k → ∃ e', retried (requests_get env url (n + j)) e') →
  attempt_result (requests_get env url (n + k)) = Raises e →
  is_RequestException e = false →
  let r := fetch_page env url n in
  result r = Raises e ∧ clock r = n + S k
  ∧ last (events r) = Some (EvGet url)
  ∧ EvLog ERROR (Error_fetching url e) ∉ events r.
Proof.
  intros Hk Hfail Hraise He r. subst r. unfold MAX_RETRY in Hk.
  assert (Hlog : ∀ e', is_RequestException e' = true →
                       EvLog ERROR (Error_fetching url e)
                       ≠ EvLog ERROR (Error_fetching url e')).
  { intros e' He' [= ->]. congruence. }
  rewrite fetch_page_run. destruct k as [|[|[|k]]]; [| | |lia].
  - clock_norm. rewrite Hraise, He. simpl. split_and!; [done|lia|done|].
    intros H. split_elem H; done.
  - destruct (Hfail 0) as (e0 & He0 & Hc0); [lia|].
    clock_norm. rewrite He0, Hc0, Hraise, He. simpl.
    split_and!; [done|lia|done|].
    intros H. split_elem H; try done. by apply (Hlog e0).
  - destruct (Hfail 0) as (e0 & He0 & Hc0); [lia|].
    destruct (Hfail 1) as (e1 & He1 & Hc1); [lia|].
    clock_norm. rewrite He0, Hc0, He1, Hc1, Hraise, He. simpl.
    split_and!; [done|lia|done|].
    intros H. split_elem H; try done; [by apply (Hlog e0)|by apply (Hlog e1)].
Qed.

Lemma X1_fetch_page_other_exception_propagates_witness :
  let r := fetch_page env_broken SEARCH_URL 0 in
  result r = Raises (OtherError "MemoryError") ∧ clock r = 0 + 1
  ∧ last (events r) = Some (EvGet SEARCH_URL)
  ∧ EvLog ERROR (Error_fetching SEARCH_URL (OtherError "MemoryError"))
    ∉ events r.
Proof.
  apply (X1_fetch_page_other_exception_propagates env_broken SEARCH_URL 0 0).
  - unfold MAX_RETRY. lia.
  - intros j Hj. lia.
  - reflexivity.
  - reflexivity.
Defined.

(** X2. One call of [fetch_page] sleeps [RETRY_INTERVAL] seconds for each
    request but the last, ten seconds at most; it writes one error entry for
    each failed attempt that it caught: as many as requests when it returns
    [None], one less otherwise, so none when the first attempt succeeds. *)
Theorem X2_fetch_page_waits_and_logs (env : Env) (url : pystr) (n : nat) :
  let r := fetch_page env url n in
  total_sleep (events r) = (RETRY_INTERVAL * (Z.of_nat (clock r - n) - 1))%Z
  ∧ (total_sleep (events r) ≤ 10)%Z
  ∧ length (List.filter is_fetch_error (events r))
    = match result r with
      | Returns None => clock r - n
      | _ => clock r - n - 1
      end.
Proof.
  intros r. subst r. rewrite fetch_page_run. unfold RETRY_INTERVAL.
  destruct (attempt_result (requests_get env url n)) as [b0|e0]; simpl.
  { replace (S n - n) with 1 by lia. split_and!; (done || lia). }
  destruct (is_RequestException e0); simpl.
  2:{ replace (S n - n) with 1 by lia. split_and!; (done || lia). }
  destruct (attempt_result (requests_get env url (S n))) as [b1|e1]; simpl.
  { replace (S (S n) - n) with 2 by lia. split_and!; (done || lia). }
  destruct (is_RequestException e1); simpl.
  2:{ replace (S (S n) - n) with 2 by lia. split_and!; (done || lia). }
  destruct (attempt_result (requests_get env url (S (S n)))) as [b2|e2]; simpl.
  { replace (S (S (S n)) - n) with 3 by lia. split_and!; (done || lia). }
  destruct (is_RequestException e2); simpl;
    replace (S (S (S n)) - n) with 3 by lia; split_and!; (done || lia).
Qed.

(** ** [parse_search_results], beyond the claims *)

Lemma extracted_warnings_length (units : list PageElement) :
  length (extracted units) + length (warnings units) = length units.
Proof.
  induction units as [|u rest IH]; [done|]. simpl.
  destruct (property_of_unit u); simpl; lia.
Qed.

(** X3. When the parser returns a tree and each listing unit of it is
    well-formed or lacks one of the elements whose text is read (title,
    price, layout, body), [parse_search_results] returns the records of the
    well-formed units in document order and logs one warning for each other
    unit: records and warnings add up to the number of units, and no request
    is issued. *)
Theorem X3_missing_elements_are_skipped (env : Env) (html : pystr) (n : nat) :
  parsed env html →
  forallb skippable (listing_units env html) = true →
  let units := listing_units env html in
  parse_search_results env html n
  = Run (Returns (extracted units)) (warnings units) n
  ∧ length (extracted units) + length (warnings units) = length units.
Proof.
  intros [soup Hsoup] H units. subst units.
  destruct (parse_search_results_parsed env html n soup Hsoup) as [-> Hunits].
  rewrite Hunits in *.
  rewrite (parse_units_skippable _ _ _ H). cbn [app].
  split; [done|]. apply extracted_warnings_length.
Qed.

Lemma X3_missing_elements_are_skipped_witness :
  let env := env_of_site
               (site_of_units [unit_no_title; unit_ok "A" "/a"; unit_no_title]) in
  let units := listing_units env SEARCH_URL in
  parse_search_results env SEARCH_URL 0
  = Run (Returns (extracted units)) (warnings units) 0
  ∧ length (extracted units) + length (warnings units) = length units.
Proof.
  apply (X3_missing_elements_are_skipped
           (env_of_site
              (site_of_units [unit_no_title; unit_ok "A" "/a"; unit_no_title]))
           SEARCH_URL 0).
  - by eexists.
  - vm_compute. reflexivity.
Defined.

Lemma parse_units_abort (pre post : list PageElement) (u : PageElement)
    (e : exn) (data : list property_info) (n : nat) :
  forallb skippable pre = true →
  property_of_unit u = Raises e →
  is_AttributeError e = false →
  parse_units (pre ++ u :: post) data n = Run (Raises e) (warnings pre) n.
Proof.
  intros Hpre Hu He. revert data.
  induction pre as [|v pre IH]; intros data; simpl.
  - unfold bind, try_except, lift. simpl. rewrite Hu. simpl. by rewrite He.
  - simpl in Hpre. apply andb_true_iff in Hpre as [Hv Hpre].
    unfold skippable in Hv. unfold bind, try_except, lift. simpl.
    destruct (property_of_unit v) as [p|e']; simpl.
    + by rewrite (IH Hpre).
    + rewrite Hv. simpl. by rewrite (IH Hpre).
Qed.

(** X4. The first listing unit whose extraction raises anything but
    [AttributeError] ends [parse_search_results] with that exception: the
    records read from the units before it are lost, the units after it are
    not looked at, and only the warnings of the units before it are
    logged. *)
Theorem X4_first_uncaught_unit_aborts
    (env : Env) (html : pystr) (n : nat)
    (pre post : list PageElement) (u : PageElement) (e : exn) :
  listing_units env html = pre ++ u :: post →
  forallb skippable pre = true →
  property_of_unit u = Raises e →
  is_AttributeError e = false →
  parse_search_results env html n = Run (Raises e) (warnings pre) n.
Proof.
  intros Hunits Hpre Hu He.
  destruct (BeautifulSoup env html) as [e'|soup] eqn:Hsoup.
  - unfold listing_units in Hunits. rewrite Hsoup in Hunits.
    by destruct pre.
  - destruct (parse_search_results_parsed env html n soup Hsoup) as [-> <-].
    rewrite Hunits. by apply parse_units_abort.
Qed.

Lemma X4_first_uncaught_unit_aborts_witness :
  parse_search_results
    (env_of_site
       (site_of_units [unit_no_title; unit_ok "A" "/a"; unit_one_div;
                       unit_ok "B" "/b"]))
    SEARCH_URL 0
  = Run (Raises IndexError) (warnings [unit_no_title; unit_ok "A" "/a"]) 0.
Proof.
  apply (X4_first_uncaught_unit_aborts _ SEARCH_URL 0
           [unit_no_title; unit_ok "A" "/a"] [unit_ok "B" "/b"] unit_one_div).
  - vm_compute. reflexivity.
  - vm_compute. reflexivity.
  - vm_compute. reflexivity.
  - reflexivity.
Defined.

Lemma strip_trimmed (s : pystr) : trimmed (strip s).
Proof.
  destruct (strip_spec s) as (l & r & _ & _ & _ & Hhead & Hlast). by split.
Qed.

Lemma strip_elem (s : pystr) (c : N) : c ∈ strip s → c ∈ s.
Proof.
  destruct (strip_spec s) as (l & r & E & _). intros H.
  rewrite E. apply elem_of_app. right. apply elem_of_app. by left.
Qed.

(** No segment of a split on "、" contains "、". *)
Lemma split_aux_touten (cur s : pystr) :
  0x3001%N ∉ cur →
  Forall (λ seg, 0x3001%N ∉ seg) (split_aux TOUTEN 0 cur s).
Proof.
  revert cur. induction s as [|c s IH]; intros cur Hcur.
  - simpl. constructor; [|constructor]. by rewrite elem_of_reverse.
  - cbn [split_aux]. unfold TOUTEN at 1. cbn [startswith].
    rewrite andb_true_r. destruct (N.eqb_spec 0x3001 c) as [Hc|Hc].
    + constructor; [by rewrite elem_of_reverse|].
      apply IH. apply not_elem_of_nil.
    + apply IH. rewrite elem_of_cons. by intros [?|?].
Qed.

(** X5. Every record that [parse_search_results] returns is clean: its
    name, price and layout and each of its stations neither start nor end
    with white space, no station contains the delimiter "、", its URL
    starts with [BASE_URL], and it has no detail key yet. *)
Theorem X5_returned_records_are_clean
    (env : Env) (html : pystr) (n : nat) (data : list property_info) :
  result (parse_search_results env html n) = Returns data →
  Forall (λ p,
            trimmed (p_name p) ∧ trimmed (p_price p) ∧ trimmed (p_madori p)
            ∧ Forall (λ st, trimmed st ∧ 0x3001%N ∉ st) (p_stations p)
            ∧ BASE_URL `prefix_of` p_url p
            ∧ p_kouzou p = None ∧ p_shikikin_reikin p = None) data.
Proof.
  intros H. destruct (parse_search_results_returns _ _ _ _ H) as [_ Hrun].
  rewrite Hrun in H. injection H as <-. apply Forall_forall. intros p Hp.
  apply extracted_elem in Hp as (u & _ & Hu).
  apply property_of_unit_returns in Hu
    as (title & price & madori & body & second & link
        & _ & _ & _ & _ & _ & _ & href & _ & ->).
  cbn [p_name p_price p_madori p_stations p_url p_kouzou p_shikikin_reikin].
  split_and!; try apply strip_trimmed; try done.
  - apply Forall_forall. intros st Hst.
    apply list_elem_of_fmap in Hst as (seg & -> & Hseg).
    split; [apply strip_trimmed|]. intros Hc. apply strip_elem in Hc.
    pose proof (split_aux_touten [] (strip (text second))
                  (not_elem_of_nil _)) as Hall.
    rewrite Forall_forall in Hall. by apply (Hall seg).
  - by exists href.
Qed.

Lemma X5_returned_records_are_clean_witness :
  Forall (λ p,
            trimmed (p_name p) ∧ trimmed (p_price p) ∧ trimmed (p_madori p)
            ∧ Forall (λ st, trimmed st ∧ 0x3001%N ∉ st) (p_stations p)
            ∧ BASE_URL `prefix_of` p_url p
            ∧ p_kouzou p = None ∧ p_shikikin_reikin p = None)
    (extracted [unit_ok " A " "/a"; unit_no_title; unit_ok "B" "/b"]).
Proof.
  apply (X5_returned_records_are_clean
           (env_of_site
              (site_of_units [unit_ok " A " "/a"; unit_no_title; unit_ok "B" "/b"]))
           SEARCH_URL 0).
  vm_compute. reflexivity.
Defined.

Lemma join_cons_cons (sep p q : pystr) (rest : list pystr) :
  join sep (p :: q :: rest) = p ++ sep ++ join sep (q :: rest).
Proof. done. Qed.

Lemma join_split_aux_touten (cur s : pystr) :
  join TOUTEN (split_aux TOUTEN 0 cur s) = reverse cur ++ s.
Proof.
  revert cur. induction s as [|c s IH]; intros cur.
  - simpl. by rewrite app_nil_r.
  - cbn [split_aux]. unfold TOUTEN at 2. cbn [startswith].
    rewrite andb_true_r. destruct (N.eqb_spec 0x3001 c) as [Hc|Hc].
    + subst c. change (length TOUTEN - 1) with 0.
      pose proof (split_aux_length TOUTEN 0 [] s) as Hlen.
      specialize (IH []). destruct (split_aux TOUTEN 0 [] s) as [|seg segs];
        [simpl in Hlen; lia|].
      rewrite join_cons_cons, IH. done.
    + rewrite IH, reverse_cons, <- app_assoc. done.
Qed.

(** X6. The split of line 60 loses nothing: joining the segments of a
    text with the delimiter "、" gives the text back. *)
Theorem X6_split_touten_join (s : pystr) :
  join TOUTEN (split s TOUTEN) = s.
Proof. unfold split. by rewrite join_split_aux_touten. Qed.

(** ** [parse_property_details], beyond the claims *)

(** Induction on a parsed tree, with the property known of all children. *)
Lemma PageElement_tree_ind (P : PageElement → Prop) :
  (∀ s, P (NavigableString s)) →
  (∀ name cls attrs kids, Forall P kids → P (Tag name cls attrs kids)) →
  ∀ e, P e.
Proof.
  intros Hstr Htag. fix IH 1. intros [s|name cls attrs kids]; [apply Hstr|].
  apply Htag. induction kids as [|k kids IHkids]; constructor;
    [apply IH|apply IHkids].
Qed.

Lemma flat_map_nil {A B} (f : A → list B) (l : list A) :
  Forall (λ x, f x = []) l → flat_map f l = [].
Proof. induction 1 as [|x l Hx _ IH]; simpl; [done|]. by rewrite Hx, IH. Qed.

Lemma existsb_false_Forall {A} (f : A → bool) (l : list A) :
  existsb f l = false → Forall (λ x, f x = false) l.
Proof.
  induction l as [|x l IH]; simpl; [constructor|].
  intros [Hx Hl]%orb_false_iff. constructor; [done|by apply IH].
Qed.

Lemma select_rows_no_table (e : PageElement) :
  has_data_table e = false → select_rows false e = [].
Proof.
  induction e as [s|name cls attrs kids IH] using PageElement_tree_ind;
    [done|].
  cbn [has_data_table select_rows].
  intros [Htable Hkids]%orb_false_iff. rewrite Htable. cbn [andb orb app].
  apply flat_map_nil. apply existsb_false_Forall in Hkids.
  rewrite Forall_forall in IH, Hkids |- *. intros k Hk.
  apply IH; [done|]. by apply Hkids.
Qed.

(** X7. Only rows under a [table] of class [data_table] count: on a tree
    without such a table, whatever other tables and rows it has,
    [parse_property_details] returns both sentinels, and logs nothing
    unless [soup.select] raises. *)
Theorem X7_no_data_table_gives_sentinels
    (env : Env) (html : pystr) (n : nat) (soup : PageElement) :
  BeautifulSoup env html = inr soup →
  has_data_table soup = false →
  parse_property_details env html n
  = Run (Returns DEFAULT_DETAILS)
      match select_fails env soup with
      | Some e => [EvLog WARNING (Failed_to_parse_property_details e)]
      | None => []
      end n.
Proof.
  intros Hsoup H.
  destruct (parse_property_details_parsed env html n soup Hsoup) as [-> _].
  unfold details_of, details_events, try_rows, select. rewrite Hsoup.
  destruct (select_fails env soup) as [e|]; [done|].
  assert (Hrows : select_table_rows soup = []).
  { destruct soup as [s|name cls attrs kids]; [done|].
    cbn [has_data_table] in H. apply orb_false_iff in H as [_ Hkids].
    cbn [select_table_rows]. apply flat_map_nil.
    apply existsb_false_Forall in Hkids.
    eapply Forall_impl; [exact Hkids|]. apply select_rows_no_table. }
  by rewrite Hrows.
Qed.

Lemma X7_no_data_table_gives_sentinels_witness :
  parse_property_details (env_with_soup plain_table_page) [] 0
  = Run (Returns DEFAULT_DETAILS) [] 0.
Proof.
  apply (X7_no_data_table_gives_sentinels (env_with_soup plain_table_page) [] 0
           plain_table_page).
  - reflexivity.
  - vm_compute. reflexivity.
Defined.

(** ** [save_to_excel] *)

(** X8. With records that have their detail keys and whose rows the sheet
    takes, [save_to_excel] returns and issues no request. With no record it
    only logs a warning and saves nothing. Otherwise it saves once, a sheet
    of the header and one row of seven cells for each record, in order, each
    cell cut to its first 32767 code points, and then logs the success or,
    when saving failed, the error, which it does not pass on. *)
Theorem X8_save_to_excel_contains_errors
    (env : Env) (data : list property_info) (filename : pystr) (n : nat) :
  Forall has_details data →
  forallb writable data = true →
  let r := save_to_excel env data filename n in
  let sheet := HEADER :: map (λ p, stored (cells p)) data in
  result r = Returns tt ∧ clock r = n
  ∧ (data = [] → events r = [EvLog WARNING No_data_to_save])
  ∧ (data ≠ [] →
     events r
     = [EvSave filename sheet;
        match workbook_save env filename sheet with
        | None => EvLog INFO (Saved_data_to filename)
        | Some e => EvLog ERROR (Error_saving_Excel e)
        end])
  ∧ length sheet = S (length data)
  ∧ Forall (λ row, length row = 7) sheet.
Proof.
  intros H Hw r sheet. subst r sheet. rewrite (save_to_excel_run _ _ _ _ H Hw).
  cbn [result events clock]. split_and!; [done..| | | |].
  - by intros ->.
  - by destruct data.
  - cbn [length]. by rewrite length_map.
  - constructor; [done|]. apply Forall_forall.
    intros row (p & -> & _)%list_elem_of_fmap. done.
Qed.

Lemma X8_save_to_excel_contains_errors_witness :
  let data := [with_kouzou "RC造"; with_kouzou "鉄骨造"] in
  let r := save_to_excel env_disk_denied data OUTPUT_EXCEL_FILE 0 in
  let sheet := HEADER :: map (λ p, stored (cells p)) data in
  result r = Returns tt ∧ clock r = 0
  ∧ (data = [] → events r = [EvLog WARNING No_data_to_save])
  ∧ (data ≠ [] →
     events r
     = [EvSave OUTPUT_EXCEL_FILE sheet;
        match workbook_save env_disk_denied OUTPUT_EXCEL_FILE sheet with
        | None => EvLog INFO (Saved_data_to OUTPUT_EXCEL_FILE)
        | Some e => EvLog ERROR (Error_saving_Excel e)
        end])
  ∧ length sheet = S (length data)
  ∧ Forall (λ row, length row = 7) sheet.
Proof.
  apply (X8_save_to_excel_contains_errors env_disk_denied
           [with_kouzou "RC造"; with_kouzou "鉄骨造"] OUTPUT_EXCEL_FILE 0).
  - repeat constructor; eexists; reflexivity.
  - vm_compute. reflexivity.
Defined.

(** The loop of lines 117-128 up to the first record that lacks a detail
    key, when the sheet takes the rows of the records before it. *)
Lemma append_rows_missing_key (pre post : list property_info)
    (p : property_info) (sheet : list (list pystr)) :
  Forall has_details pre →
  forallb writable pre = true →
  p_kouzou p = None ∨ p_shikikin_reikin p = None →
  append_rows (pre ++ p :: post) sheet
  = Raises (KeyError match p_shikikin_reikin p with
                     | None => K_SHIKIKIN_REIKIN
                     | Some _ => K_KOUZOU
                     end).
Proof.
  intros Hpre. revert sheet.
  induction Hpre as [|q pre [[k Hk] [s Hs]] _ IH]; intros sheet Hw Hp.
  - cbn [app append_rows]. unfold row_of_item, getitem_key.
    destruct (p_shikikin_reikin p) as [s|]; [|done].
    destruct Hp as [->|?]; done.
  - cbn [forallb] in Hw. apply andb_true_iff in Hw as [Hq Hw].
    cbn [app append_rows]. unfold row_of_item, sheet_append.
    rewrite Hk, Hs. cbn [getitem_key obind]. rewrite check_cells_run.
    assert (Hc : [p_name q; p_price q; s; k; p_madori q;
                  join COMMA_SPACE (p_stations q); p_url q] = cells q)
      by (unfold cells; by rewrite Hk, Hs).
    rewrite Hc. fold (writable q). rewrite Hq. cbn [obind]. by apply IH.
Qed.

(** X9. Handed a record that lacks a detail key, after records that have
    theirs and whose rows the sheet takes, [save_to_excel] raises [KeyError]
    for the first key that is missing while it builds the rows: nothing is
    saved and nothing is logged, whatever the records after it are. *)
Theorem X9_save_to_excel_missing_detail_key
    (env : Env) (pre post : list property_info) (p : property_info)
    (filename : pystr) (n : nat) :
  Forall has_details pre →
  forallb writable pre = true →
  p_kouzou p = None ∨ p_shikikin_reikin p = None →
  save_to_excel env (pre ++ p :: post) filename n
  = Run (Raises (KeyError match p_shikikin_reikin p with
                          | None => K_SHIKIKIN_REIKIN
                          | Some _ => K_KOUZOU
                          end)) [] n.
Proof.
  intros Hpre Hw Hp.
  pose proof (append_rows_missing_key pre post p [HEADER] Hpre Hw Hp) as Hrows.
  destruct (pre ++ p :: post) as [|q rest] eqn:E; [by destruct pre|].
  unfold save_to_excel, bind, lift. cbn [result events clock].
  rewrite header_is_stored. cbn [obind]. by rewrite Hrows.
Qed.

Lemma X9_save_to_excel_missing_detail_key_witness :
  save_to_excel env_disk_denied
    ([with_kouzou "RC造"] ++ extracted [unit_ok "A" "/a"; unit_ok "B" "/b"])
    OUTPUT_EXCEL_FILE 0
  = Run (Raises (KeyError K_SHIKIKIN_REIKIN)) [] 0.
Proof.
  apply (X9_save_to_excel_missing_detail_key env_disk_denied
           [with_kouzou "RC造"] (extracted [unit_ok "B" "/b"])
           {| p_name := py "A"; p_price := py "8万円"; p_madori := py "1LDK";
              p_stations := [py "A駅 歩5分"; py "B駅 歩9分"];
              p_url := py "https://suumo.jp/a";
              p_kouzou := None; p_shikikin_reikin := None |}
           OUTPUT_EXCEL_FILE 0).
  - repeat constructor; eexists; reflexivity.
  - vm_compute. reflexivity.
  - by left.
Defined.

(** ** The filter of line 165, beyond the claims *)

Lemma filter_mokuzou_returns_keys (all_data kept : list property_info) :
  filter_mokuzou all_data = Returns kept →
  Forall (λ p, is_Some (p_kouzou p)) all_data.
Proof.
  revert kept. induction all_data as [|p rest IH]; intros kept; [constructor|].
  cbn [filter_mokuzou]. unfold getitem_key.
  destruct (p_kouzou p) as [s|] eqn:Hs; cbn [obind]; [|done].
  destruct (filter_mokuzou rest) as [filtered|e]; cbn [obind]; [|done].
  intros _. constructor; [rewrite Hs; by eexists|]. by eapply IH.
Qed.

Lemma filter_twice {A} (f : A → bool) (l : list A) :
  List.filter f (List.filter f l) = List.filter f l.
Proof.
  induction l as [|x l IH]; [done|]. simpl.
  destruct (f x) eqn:E; simpl; [rewrite E|]; by rewrite ?IH.
Qed.

(** X10. Whatever line 165 returns holds no record whose structure
    contains "木造", is a part of the input no longer than it, and is left
    as it is by the filter applied once more. *)
Theorem X10_filter_mokuzou_idempotent (all_data kept : list property_info) :
  filter_mokuzou all_data = Returns kept →
  Forall (λ p, ∃ s, p_kouzou p = Some s ∧ ¬ contains MOKUZOU s) kept
  ∧ (∀ p, p ∈ kept → p ∈ all_data)
  ∧ length kept ≤ length all_data
  ∧ filter_mokuzou kept = Returns kept.
Proof.
  intros H. pose proof (filter_mokuzou_returns_keys _ _ H) as Hkeys.
  rewrite (filter_mokuzou_filter _ Hkeys) in H. injection H as <-.
  assert (Hin : ∀ p, p ∈ List.filter (λ p, negb (is_mokuzou p)) all_data →
                     p ∈ all_data ∧ is_mokuzou p = false).
  { intros p Hp. apply list_elem_of_In, filter_In in Hp as [Hp Hf].
    split; [by apply list_elem_of_In|by apply negb_true_iff]. }
  rewrite Forall_forall in Hkeys. split_and!.
  - apply Forall_forall. intros p [Hp Hf]%Hin.
    destruct (Hkeys p Hp) as [s Hs]. exists s. split; [done|].
    unfold is_mokuzou in Hf. rewrite Hs in Hf.
    intros Hc%str_in_spec. congruence.
  - by intros p [Hp _]%Hin.
  - apply filter_length_le.
  - rewrite filter_mokuzou_filter.
    + by rewrite filter_twice.
    + apply Forall_forall. intros p [Hp _]%Hin. by apply Hkeys.
Qed.

Lemma X10_filter_mokuzou_idempotent_witness :
  let kept := [with_kouzou "RC造"] in
  Forall (λ p, ∃ s, p_kouzou p = Some s ∧ ¬ contains MOKUZOU s) kept
  ∧ (∀ p, p ∈ kept → p ∈ [with_kouzou "木造"; with_kouzou "RC造";
                           with_kouzou "非木造"])
  ∧ length kept ≤ 3
  ∧ filter_mokuzou kept = Returns kept.
Proof.
  apply (X10_filter_mokuzou_idempotent
           [with_kouzou "木造"; with_kouzou "RC造"; with_kouzou "非木造"]).
  vm_compute. reflexivity.
Defined.

(** X11. A record without the key "構造" makes line 165 raise
    [KeyError], whatever the other records are. *)
Theorem X11_filter_mokuzou_missing_key (all_data : list property_info) :
  Exists (λ p, p_kouzou p = None) all_data →
  filter_mokuzou all_data = Raises (KeyError K_KOUZOU).
Proof.
  induction all_data as [|p rest IH]; intros H; [by apply Exists_nil in H|].
  cbn [filter_mokuzou]. unfold getitem_key.
  destruct (p_kouzou p) as [s|] eqn:Hs; cbn [obind]; [|done].
  apply Exists_cons in H as [?|H]; [congruence|]. by rewrite (IH H).
Qed.

Lemma X11_filter_mokuzou_missing_key_witness :
  filter_mokuzou (with_kouzou "RC造" :: extracted [unit_ok "A" "/a"])
  = Raises (KeyError K_KOUZOU).
Proof.
  apply (X11_filter_mokuzou_missing_key
           (with_kouzou "RC造" :: extracted [unit_ok "A" "/a"])).
  apply Exists_cons_tl. vm_compute. by apply Exists_cons_hd.
Defined.

(** ** The loop over the listings and the whole run *)

Lemma fetch_page_progress (env : Env) (url : pystr) (n : nat) :
  forallb is_progress (events (fetch_page env url n)) = true
  ∧ List.filter is_detail_failure (events (fetch_page env url n)) = [].
Proof.
  rewrite fetch_page_run.
  destruct (attempt_result (requests_get env url n)) as [b0|e0]; [done|].
  destruct (is_RequestException e0); [|done]. cbn [negb].
  destruct (attempt_result (requests_get env url (S n))) as [b1|e1]; [done|].
  destruct (is_RequestException e1); [|done]. cbn [negb].
  destruct (attempt_result (requests_get env url (S (S n)))) as [b2|e2];
    [done|].
  by destruct (is_RequestException e2).
Qed.

Lemma warnings_progress (units : list PageElement) :
  forallb is_progress (warnings units) = true.
Proof.
  induction units as [|u rest IH]; [done|]. simpl.
  by destruct (property_of_unit u).
Qed.

Lemma parse_units_progress (units : list PageElement)
    (data : list property_info) (n : nat) :
  forallb is_progress (events (parse_units units data n)) = true.
Proof.
  pose proof (parse_units_events units data n) as H.
  apply forallb_forall. intros e He. apply list_elem_of_In in He.
  revert data H He. induction units as [|u rest IH]; intros data H He.
  - by apply elem_of_nil in He.
  - revert H He. simpl. unfold bind, try_except, lift. simpl.
    destruct (property_of_unit u) as [p|e']; simpl.
    + destruct (result (parse_units rest (data ++ [p]) n)) eqn:E; simpl;
        intros H He; apply (IH (data ++ [p])); try done;
        apply parse_units_events.
    + destruct (is_AttributeError e'); simpl; [|by intros _ ?%elem_of_nil].
      destruct (result (parse_units rest data n)) eqn:E; simpl;
        intros H [->|He]%elem_of_cons; try done;
        apply (IH data); try done; apply parse_units_events.
Qed.

Lemma parse_search_results_progress (env : Env) (html : pystr) (n : nat) :
  forallb is_progress (events (parse_search_results env html n)) = true
  ∧ clock (parse_search_results env html n) = n.
Proof.
  destruct (BeautifulSoup env html) as [e|soup] eqn:E.
  - by rewrite (parse_search_results_rejected _ _ _ _ E).
  - destruct (parse_search_results_parsed _ _ n _ E) as [-> _].
    split; [apply parse_units_progress|apply parse_units_clock].
Qed.

Lemma details_events_progress (env : Env) (html : pystr) :
  forallb is_progress (details_events env html) = true
  ∧ List.filter is_detail_failure (details_events env html) = [].
Proof.
  unfold details_events. destruct (BeautifulSoup env html) as [|soup]; [done|].
  by destruct (select_fails env soup).
Qed.

Lemma fetch_details_progress (env : Env) (ps acc : list property_info) (n : nat) :
  forallb is_progress (events (fetch_details env ps acc n)) = true.
Proof.
  revert acc n. induction ps as [|p rest IH]; intros acc n; [done|].
  rewrite fetch_details_cons. cbn zeta.
  destruct (fetch_page_progress env (p_url p) n) as [Hp _].
  destruct (result (fetch_page env (p_url p) n)) as [[html|]|e];
    cbn [events]; [| |done].
  - destruct (details_events_progress env html) as [Hd _].
    destruct (BeautifulSoup env html); cbn [events]; [done|].
    rewrite !forallb_app, Hp, Hd. apply IH.
  - rewrite forallb_app, Hp. cbn [andb forallb is_progress]. apply IH.
Qed.

Lemma fetch_details_clock (env : Env) (ps acc : list property_info) (n : nat) :
  n ≤ clock (fetch_details env ps acc n) ≤ n + MAX_RETRY * length ps.
Proof.
  revert acc n. induction ps as [|p rest IH]; intros acc n; [simpl; lia|].
  rewrite fetch_details_cons. cbn zeta.
  pose proof (fetch_page_clock env (p_url p) n) as Hp.
  destruct (result (fetch_page env (p_url p) n)) as [[html|]|e];
    [destruct (BeautifulSoup env html)| |]; cbn [clock length].
  - lia.
  - specialize (IH (acc ++ [update p (details_of env html)])
                  (clock (fetch_page env (p_url p) n))). lia.
  - specialize (IH acc (clock (fetch_page env (p_url p) n))). lia.
  - lia.
Qed.

Lemma fetch_details_accounting (env : Env) (ps : list property_info)
    (outs : list (option pystr)) (acc : list property_info) (n n' : nat) :
  fetch_seq env n ps outs n' →
  length (merged env ps outs)
  + length (List.filter is_detail_failure (events (fetch_details env ps acc n)))
  = length ps.
Proof.
  intros H. revert acc.
  induction H as [n|n p ps o outs n' Ho Hsoup _ IH]; intros acc; [done|].
  rewrite fetch_details_cons. cbn zeta. rewrite Ho.
  destruct (fetch_page_progress env (p_url p) n) as [_ Hf].
  destruct o as [html|].
  - destruct (details_events_progress env html) as [_ Hd].
    destruct (Hsoup html eq_refl) as [soup Hhtml]. rewrite Hhtml.
    cbn [events merged length]. rewrite !List.filter_app, Hf, Hd. cbn [app].
    specialize (IH (acc ++ [update p (details_of env html)])). lia.
  - cbn [events merged length]. rewrite List.filter_app, Hf.
    cbn [app List.filter is_detail_failure length].
    specialize (IH acc). lia.
Qed.

(** X12. When every detail fetch returns, nothing or a body for which the
    parser returns a tree, the loop of lines 153-162 accounts for each
    listing once: it returns records that all have their
    detail keys, and these together with the "Failed to fetch detail"
    warnings are as many as the listings; it issues at most [MAX_RETRY]
    requests for each listing. *)
Theorem X12_each_listing_merged_or_logged
    (env : Env) (ps : list property_info) (outs : list (option pystr))
    (n n' : nat) :
  fetch_seq env n ps outs n' →
  let r := fetch_details env ps [] n in
  ∃ all_data,
    result r = Returns all_data
    ∧ Forall has_details all_data
    ∧ length all_data + length (List.filter is_detail_failure (events r))
      = length ps
    ∧ n ≤ clock r ≤ n + MAX_RETRY * length ps.
Proof.
  intros H r. subst r. exists (merged env ps outs).
  destruct (fetch_details_seq env ps outs [] n n' H) as [Hres _].
  split_and!.
  - done.
  - apply merged_has_details.
  - by apply (fetch_details_accounting env ps outs [] n n').
  - apply fetch_details_clock.
  - apply fetch_details_clock.
Qed.

Lemma X12_each_listing_merged_or_logged_witness :
  let env := env_of_site (site_first_detail_down "RC造") in
  let ps := extracted (site_units (site_first_detail_down "RC造")) in
  let r := fetch_details env ps [] 1 in
  ∃ all_data,
    result r = Returns all_data
    ∧ Forall has_details all_data
    ∧ length all_data + length (List.filter is_detail_failure (events r))
      = length ps
    ∧ 1 ≤ clock r ≤ 1 + MAX_RETRY * length ps.
Proof.
  apply (X12_each_listing_merged_or_logged
           (env_of_site (site_first_detail_down "RC造"))
           (extracted (site_units (site_first_detail_down "RC造")))
           [None; Some (BASE_URL ++ py "/b")] 1 5).
  vm_compute. apply fetch_seq_cons; [vm_compute; reflexivity|done|].
  vm_compute.
  apply fetch_seq_cons; [vm_compute; reflexivity|intros ? [= <-]; by eexists|].
  vm_compute. apply fetch_seq_nil.
Defined.

Lemma fetch_details_has_details (env : Env) (ps all_data : list property_info)
    (n : nat) :
  result (fetch_details env ps [] n) = Returns all_data →
  Forall has_details all_data.
Proof.
  intros H. apply fetch_details_returns in H as (new & -> & Hnew).
  cbn [app]. eapply Forall_impl; [exact Hnew|].
  intros q (p0 & d & _ & ->). split; eexists; reflexivity.
Qed.

Lemma progress_not_closing (l : list event) :
  forallb is_progress l = true →
  Forall (λ ev, is_sink_event ev = false) l
  ∧ (EvLog INFO Scraping_done ∉ l)
  ∧ List.filter is_save l = [].
Proof.
  induction l as [|ev l IH]; [intros _; split_and!; [constructor| |done]|].
  - apply not_elem_of_nil.
  - cbn [forallb]. intros [Hev Hl]%andb_true_iff.
    destruct (IH Hl) as (H1 & H2 & H3). split_and!.
    + constructor; [|done]. by destruct ev as [| [] [] | |].
    + rewrite elem_of_cons. intros [<-|?]; done.
    + cbn [List.filter]. by destruct ev as [| [] [] | |].
Qed.

(** X13. A run issues at least one request and at most [MAX_RETRY] for
    the index page and for each listing unit found on it, whatever the
    network answers and however the run ends. *)
Theorem X13_requests_are_bounded (env : Env) (n : nat) :
  let r := scrape_and_save env n in
  n + 1 ≤ clock r ≤ n + MAX_RETRY * (1 + listings_seen env n).
Proof.
  intros r. subst r. rewrite scrape_and_save_run. cbn zeta.
  unfold listings_seen.
  pose proof (fetch_page_clock env SEARCH_URL n) as Hindex.
  destruct (result (fetch_page env SEARCH_URL n)) as [[html|]|e];
    cbn [clock]; [|lia..].
  destruct (parse_search_results_progress env html
              (clock (fetch_page env SEARCH_URL n))) as [_ Hparse].
  destruct (result (parse_search_results env html _)) as [[|p ps]|e] eqn:H2;
    cbn [clock]; [lia| |lia].
  destruct (parse_search_results_returns _ _ _ _ H2) as [_ Hrun].
  rewrite Hrun in H2. cbn [result] in H2. injection H2 as H2.
  pose proof (extracted_warnings_length (listing_units env html)) as Hlen.
  rewrite H2 in Hlen. rewrite Hparse.
  pose proof (fetch_details_clock env (p :: ps) []
                (clock (fetch_page env SEARCH_URL n))) as Hdet.
  destruct (result (fetch_details env (p :: ps) [] _)) as [all_data|e];
    cbn [clock]; [|unfold MAX_RETRY in *; lia].
  destruct (filter_mokuzou all_data) as [filtered|e]; cbn [clock];
    [|unfold MAX_RETRY in *; lia].
  pose proof (save_to_excel_clock env filtered OUTPUT_EXCEL_FILE
                (clock (fetch_details env (p :: ps) []
                          (clock (fetch_page env SEARCH_URL n))))) as Hsave.
  destruct (result (save_to_excel env filtered OUTPUT_EXCEL_FILE _));
    cbn [clock]; rewrite Hsave; unfold MAX_RETRY in *; lia.
Qed.

Lemma raising_run_events (env : Env) (n : nat) (e : exn) :
  result (scrape_and_save env n) = Raises e →
  Forall (λ ev, is_sink_event ev = false) (events (scrape_and_save env n))
  ∧ EvLog INFO Scraping_done ∉ events (scrape_and_save env n).
Proof.
  intros H.
  assert (Hrest : ∃ rest, events (scrape_and_save env n)
                          = EvLog INFO Start_scraping :: rest
                          ∧ forallb is_progress rest = true).
  { revert H. rewrite scrape_and_save_run. cbn zeta.
    destruct (fetch_page_progress env SEARCH_URL n) as [H1 _].
    destruct (result (fetch_page env SEARCH_URL n)) as [[html|]|e1];
      cbn [result events]; [|done|by eexists].
    destruct (parse_search_results_progress env html
                (clock (fetch_page env SEARCH_URL n))) as [H2 _].
    destruct (result (parse_search_results env html _)) as [[|p ps]|e2];
      cbn [result events]; [done| |].
    2:{ intros _. eexists. split; [done|]. by rewrite forallb_app, H1, H2. }
    pose proof (fetch_details_progress env (p :: ps) []
                  (clock (parse_search_results env html
                            (clock (fetch_page env SEARCH_URL n))))) as H3.
    destruct (result (fetch_details env (p :: ps) [] _)) as [all_data|e3]
      eqn:Hdet; cbn [result events].
    2:{ intros _. eexists. split; [done|].
        by rewrite !forallb_app, H1, H2, H3. }
    apply fetch_details_has_details in Hdet.
    rewrite filter_mokuzou_filter
      by (eapply Forall_impl; [exact Hdet|by intros ? []]).
    rewrite save_to_excel_cases by by apply has_details_filter.
    destruct (forallb writable _); cbn [result events]; [done|].
    intros _. eexists. split; [done|].
    by rewrite !forallb_app, H1, H2, H3. }
  destruct Hrest as (rest & -> & Hrest).
  destruct (progress_not_closing rest Hrest) as (Hsink & Hdone & _). split.
  - by constructor.
  - rewrite elem_of_cons. by intros [?|?].
Qed.

(** X14. A run that ends with an exception has saved nothing: none of its
    events is an event of the sink, and "Scraping done." is not logged. *)
Theorem X14_raising_run_saves_nothing (env : Env) (n : nat) (e : exn) :
  result (scrape_and_save env n) = Raises e →
  Forall (λ ev, is_sink_event ev = false) (events (scrape_and_save env n))
  ∧ EvLog INFO Scraping_done ∉ events (scrape_and_save env n).
Proof. apply raising_run_events. Qed.

Lemma X14_raising_run_saves_nothing_witness :
  let r := scrape_and_save
             (env_of_site (site_of_units [unit_ok "A" "/a"; unit_no_link])) 0 in
  Forall (λ ev, is_sink_event ev = false) (events r)
  ∧ EvLog INFO Scraping_done ∉ events r.
Proof.
  apply (X14_raising_run_saves_nothing
           (env_of_site (site_of_units [unit_ok "A" "/a"; unit_no_link])) 0
           TypeError).
  vm_compute. reflexivity.
Defined.

(** X15. One listing unit whose extraction raises anything but
    [AttributeError] ends the whole run with that exception, right after
    the index page is parsed: no detail page is requested, no record of the
    other units is saved, and the exception leaves [scrape_and_save]. *)
Theorem X15_malformed_unit_ends_the_run
    (env : Env) (n : nat) (html : pystr)
    (pre post : list PageElement) (u : PageElement) (e : exn) :
  let index := fetch_page env SEARCH_URL n in
  result index = Returns (Some html) →
  listing_units env html = pre ++ u :: post →
  forallb skippable pre = true →
  property_of_unit u = Raises e →
  is_AttributeError e = false →
  scrape_and_save env n
  = Run (Raises e)
      (EvLog INFO Start_scraping :: events index ++ warnings pre)
      (clock index).
Proof.
  intros index Hindex Hunits Hpre Hu He. subst index.
  rewrite scrape_and_save_run. cbn zeta. rewrite Hindex.
  destruct (BeautifulSoup env html) as [e'|soup] eqn:Hsoup.
  - unfold listing_units in Hunits. rewrite Hsoup in Hunits. by destruct pre.
  - destruct (parse_search_results_parsed env html
                (clock (fetch_page env SEARCH_URL n)) soup Hsoup) as [-> <-].
    rewrite Hunits, (parse_units_abort _ _ _ _ _ _ Hpre Hu He).
    done.
Qed.

Lemma X15_malformed_unit_ends_the_run_witness :
  let env := env_of_site (site_of_units [unit_ok "A" "/a"; unit_no_link]) in
  scrape_and_save env 0
  = Run (Raises TypeError)
      (EvLog INFO Start_scraping :: events (fetch_page env SEARCH_URL 0)
       ++ warnings [unit_ok "A" "/a"])
      (clock (fetch_page env SEARCH_URL 0)).
Proof.
  apply (X15_malformed_unit_ends_the_run
           (env_of_site (site_of_units [unit_ok "A" "/a"; unit_no_link]))
           0 SEARCH_URL [unit_ok "A" "/a"] [] unit_no_link).
  - reflexivity.
  - vm_compute. reflexivity.
  - vm_compute. reflexivity.
  - vm_compute. reflexivity.
  - reflexivity.
Defined.

(** X16. Whatever happens, a run saves the workbook at most once; and a
    run that returns normally ends with one of three log entries: the
    error that the search results could not be fetched, the warning that
    no listing was found, or "Scraping done.". *)
Theorem X16_one_save_and_a_closing_entry (env : Env) (n : nat) :
  let r := scrape_and_save env n in
  length (List.filter is_save (events r)) ≤ 1
  ∧ (result r = Returns tt →
     last (events r) = Some (EvLog ERROR Failed_to_get_search_results)
     ∨ last (events r) = Some (EvLog WARNING No_properties_found)
     ∨ last (events r) = Some (EvLog INFO Scraping_done)).
Proof.
  intros r. subst r. rewrite scrape_and_save_run. cbn zeta.
  destruct (fetch_page_progress env SEARCH_URL n) as [H1 _].
  apply progress_not_closing in H1 as (_ & _ & H1).
  destruct (result (fetch_page env SEARCH_URL n)) as [[html|]|e1];
    cbn [result events List.filter is_save].
  2:{ rewrite List.filter_app, H1. split; [simpl; lia|]. intros _. left.
      by rewrite last_cons, last_app. }
  2:{ rewrite H1. split; [simpl; lia|done]. }
  destruct (parse_search_results_progress env html
              (clock (fetch_page env SEARCH_URL n))) as [H2 _].
  apply progress_not_closing in H2 as (_ & _ & H2).
  destruct (result (parse_search_results env html _)) as [[|p ps]|e2];
    cbn [result events List.filter is_save].
  1:{ rewrite !List.filter_app, H1, H2. split; [simpl; lia|]. intros _.
      right. left. by rewrite last_cons, !last_app. }
  2:{ rewrite !List.filter_app, H1, H2. split; [simpl; lia|done]. }
  pose proof (fetch_details_progress env (p :: ps) []
                (clock (parse_search_results env html
                          (clock (fetch_page env SEARCH_URL n))))) as H3.
  apply progress_not_closing in H3 as (_ & _ & H3).
  destruct (result (fetch_details env (p :: ps) [] _)) as [all_data|e3]
    eqn:Hdet; cbn [result events List.filter is_save].
  2:{ rewrite !List.filter_app, H1, H2, H3. split; [simpl; lia|done]. }
  apply fetch_details_has_details in Hdet.
  rewrite filter_mokuzou_filter
    by (eapply Forall_impl; [exact Hdet|by intros ? []]).
  rewrite save_to_excel_cases by by apply has_details_filter.
  destruct (forallb writable _); cbn [result events List.filter is_save].
  2:{ rewrite !List.filter_app, H1, H2, H3. split; [simpl; lia|done]. }
  rewrite !List.filter_app, H1, H2, H3. split.
  - cbn [app]. destruct (List.filter _ all_data); simpl; [lia|].
    destruct (workbook_save env _ _); simpl; lia.
  - intros _. right. right. by rewrite last_cons, !last_app.
Qed.

(** ** What is not caught *)

(** X17. The two calls of the parser (lines 48 and 79) are outside the
    [try] blocks: an exception of the parser leaves [parse_search_results]
    and [parse_property_details] as it is, with nothing logged and no
    defaults returned. *)
Theorem X17_parser_exception_is_not_caught
    (env : Env) (html : pystr) (n : nat) (e : exn) :
  BeautifulSoup env html = inl e →
  parse_search_results env html n = Run (Raises e) [] n
  ∧ parse_property_details env html n = Run (Raises e) [] n.
Proof.
  intros H. split.
  - by apply parse_search_results_rejected.
  - by apply parse_property_details_rejected.
Qed.

Lemma X17_parser_exception_is_not_caught_witness :
  parse_search_results env_parser_rejects SEARCH_URL 0
  = Run (Raises (OtherError "ParserRejectedMarkup")) [] 0
  ∧ parse_property_details env_parser_rejects SEARCH_URL 0
    = Run (Raises (OtherError "ParserRejectedMarkup")) [] 0.
Proof.
  apply (X17_parser_exception_is_not_caught env_parser_rejects SEARCH_URL 0).
  reflexivity.
Defined.

Lemma fetch_details_rejected (env : Env) (pre post : list property_info)
    (p : property_info) (outs : list (option pystr)) (acc : list property_info)
    (n n1 : nat) (body : pystr) (e : exn) :
  fetch_seq env n pre outs n1 →
  result (fetch_page env (p_url p) n1) = Returns (Some body) →
  BeautifulSoup env body = inl e →
  result (fetch_details env (pre ++ p :: post) acc n) = Raises e
  ∧ clock (fetch_details env (pre ++ p :: post) acc n)
    = clock (fetch_page env (p_url p) n1).
Proof.
  intros Hseq Hbody He. revert acc.
  induction Hseq as [n|n q pre o outs n1 Ho Hsoup _ IH]; intros acc.
  - cbn [app]. rewrite fetch_details_cons. cbn zeta. by rewrite Hbody, He.
  - cbn [app]. rewrite fetch_details_cons. cbn zeta. rewrite Ho.
    destruct o as [html|].
    + destruct (Hsoup html eq_refl) as [soup ->]. cbn [result clock].
      by apply IH.
    + cbn [result clock]. by apply IH.
Qed.

(** X18. One detail page that the parser rejects ends the whole run with
    the exception of the parser: the records merged before it are lost, no
    later detail page is requested, and nothing is saved. *)
Theorem X18_rejected_detail_page_ends_the_run
    (env : Env) (n : nat) (html : pystr) (pre post : list property_info)
    (p : property_info) (outs : list (option pystr)) (n1 : nat)
    (body : pystr) (e : exn) :
  let index := fetch_page env SEARCH_URL n in
  let detail := fetch_page env (p_url p) n1 in
  result index = Returns (Some html) →
  result (parse_search_results env html (clock index))
  = Returns (pre ++ p :: post) →
  fetch_seq env (clock index) pre outs n1 →
  result detail = Returns (Some body) →
  BeautifulSoup env body = inl e →
  let r := scrape_and_save env n in
  result r = Raises e ∧ clock r = clock detail
  ∧ Forall (λ ev, is_sink_event ev = false) (events r).
Proof.
  intros index detail Hindex Hparse Hseq Hbody He r. subst index detail r.
  rewrite scrape_and_save_run. cbn zeta. rewrite Hindex.
  pose proof (parse_search_results_events env html
                (clock (fetch_page env SEARCH_URL n))) as Hev.
  destruct (parse_search_results_progress env html
              (clock (fetch_page env SEARCH_URL n))) as [_ Hclock].
  rewrite Hparse.
  destruct (fetch_details_rejected env pre post p outs [] _ _ _ _
              Hseq Hbody He) as [Hres Hclock'].
  rewrite Hclock in *.
  pose proof (fetch_details_events env (pre ++ p :: post) []
                (clock (fetch_page env SEARCH_URL n))) as Hdet.
  destruct (pre ++ p :: post) as [|q qs] eqn:E; [by destruct pre|].
  rewrite Hres. cbn [result events clock]. split_and!; [done..|].
  apply Forall_cons_2; [done|]. apply Forall_app_2.
  - eapply Forall_impl; [apply fetch_page_events|]. by intros ? [].
  - apply Forall_app_2; [|done].
    eapply Forall_impl; [exact Hev|]. by intros ? [].
Qed.

Lemma X18_rejected_detail_page_ends_the_run_witness :
  let r := scrape_and_save env_detail_rejected 0 in
  result r = Raises (OtherError "ParserRejectedMarkup") ∧ clock r = 2
  ∧ Forall (λ ev, is_sink_event ev = false) (events r).
Proof.
  apply (X18_rejected_detail_page_ends_the_run env_detail_rejected 0 SEARCH_URL
           [] (extracted [unit_ok "B" "/b"])
           {| p_name := py "A"; p_price := py "8万円"; p_madori := py "1LDK";
              p_stations := [py "A駅 歩5分"; py "B駅 歩9分"];
              p_url := py "https://suumo.jp/a";
              p_kouzou := None; p_shikikin_reikin := None |}
           [] 1 (py "https://suumo.jp/a")).
  - reflexivity.
  - vm_compute. reflexivity.
  - apply fetch_seq_nil.
  - vm_compute. reflexivity.
  - vm_compute. reflexivity.
Defined.

(** X19. [sheet.append] (line 128) is outside the [try]: with records that
    have their detail keys, one cell holding a control character that the
    sheet refuses makes [save_to_excel] raise [IllegalCharacterError].
    Nothing is saved and nothing is logged, whatever the other records
    are. *)
Theorem X19_illegal_character_is_not_caught
    (env : Env) (data : list property_info) (filename : pystr) (n : nat) :
  Forall has_details data →
  forallb writable data = false →
  save_to_excel env data filename n = Run (Raises IllegalCharacterError) [] n.
Proof. intros H Hw. by rewrite save_to_excel_cases, Hw. Qed.

Lemma X19_illegal_character_is_not_caught_witness :
  save_to_excel env_disk_denied [with_kouzou "RC造"; with_bell] OUTPUT_EXCEL_FILE 0
  = Run (Raises IllegalCharacterError) [] 0.
Proof.
  apply (X19_illegal_character_is_not_caught env_disk_denied
           [with_kouzou "RC造"; with_bell] OUTPUT_EXCEL_FILE 0).
  - repeat constructor; eexists; reflexivity.
  - vm_compute. reflexivity.
Defined.

(** X20. A control character in the page text of one listing that passes
    the filter ends the whole run: when every detail fetch returns and the
    sheet refuses the row of one of the records handed to [save_to_excel],
    [scrape_and_save] raises [IllegalCharacterError] after the last detail
    fetch, the workbook is not saved and "Scraping done." is not logged. *)
Theorem X20_illegal_character_ends_the_run
    (env : Env) (n : nat) (html : pystr) (ps : list property_info)
    (outs : list (option pystr)) (n' : nat) :
  let index := fetch_page env SEARCH_URL n in
  result index = Returns (Some html) →
  result (parse_search_results env html (clock index)) = Returns ps →
  ps ≠ [] →
  fetch_seq env (clock index) ps outs n' →
  forallb writable
    (List.filter (λ p, negb (is_mokuzou p)) (merged env ps outs)) = false →
  let r := scrape_and_save env n in
  result r = Raises IllegalCharacterError ∧ clock r = n'
  ∧ Forall (λ ev, is_sink_event ev = false) (events r)
  ∧ EvLog INFO Scraping_done ∉ events r.
Proof.
  intros index Hindex Hparse Hne Hseq Hw r. subst r.
  destruct (scrape_and_save_reaches_sink env n html ps outs n'
              Hindex Hparse Hne Hseq) as (before & Hbefore & Hrun & Hdet).
  rewrite save_to_excel_cases, Hw in Hrun by done.
  cbn [result events] in Hrun. rewrite app_nil_r in Hrun.
  assert (Hres : result (scrape_and_save env n) = Raises IllegalCharacterError)
    by by rewrite Hrun.
  destruct (raising_run_events env n _ Hres) as [Hsink Hdone].
  split_and!; [done|by rewrite Hrun|done..].
Qed.

Lemma X20_illegal_character_ends_the_run_witness :
  let r := scrape_and_save (env_of_site (site_of_units [unit_bell])) 0 in
  result r = Raises IllegalCharacterError ∧ clock r = 2
  ∧ Forall (λ ev, is_sink_event ev = false) (events r)
  ∧ EvLog INFO Scraping_done ∉ events r.
Proof.
  apply (X20_illegal_character_ends_the_run
           (env_of_site (site_of_units [unit_bell])) 0 SEARCH_URL
           (extracted [unit_bell]) [Some (BASE_URL ++ py "/x")] 2).
  - reflexivity.
  - vm_compute. reflexivity.
  - vm_compute. discriminate.
  - vm_compute.
    apply fetch_seq_cons; [vm_compute; reflexivity|intros ? [= <-]; by eexists|].
    vm_compute. apply fetch_seq_nil.
  - vm_compute. reflexivity.
Defined.


